(** * financial_datasets_server: the request adapter, embedded in Rocq

    The server exposes eight tools.  Each one formats a URL, performs one
    GET through [make_request], looks at one field of the decoded body and
    returns either a fixed message or [json.dumps(field, indent=2)].

    The embedding follows [financial_datasets_server.py] function by
    function.  Python values are modelled as they are at run time:
    - a [str] is a sequence of Unicode code points ([pystr]);
    - an [int] is a [Z];
    - a decoded JSON body is a [json] tree whose objects keep insertion
      order, as Python dictionaries do;
    - a call that may raise returns an [outcome];
    - the network is a function from requests to responses, and every tool
      runs in a small monad that logs the requests it sends. *)

From Stdlib Require Import List String Ascii ZArith NArith Bool Lia.
From Stdlib Require Import DecimalString DecimalN DecimalPos DecimalFacts.
Import ListNotations.

Local Open Scope N_scope.
Local Open Scope list_scope.

(** ** Python strings *)

Module PyStr.

(** A Python [str]: its code points, in order. *)
Definition pystr := list N.

(** A literal of the source, spelled with Rocq's string notation. *)
Definition lit (s : string) : pystr :=
  map N_of_ascii (list_ascii_of_string s).

(** [a > b] on [str]: lexicographic comparison of code points. *)
Fixpoint str_gt (a b : pystr) : bool :=
  match a, b with
  | [], _ => false
  | _ :: _, [] => true
  | x :: a', y :: b' =>
      if y <? x then true
      else if x =? y then str_gt a' b'
      else false
  end.

(** [a == b] on [str]. *)
Fixpoint str_eqb (a b : pystr) : bool :=
  match a, b with
  | [], [] => true
  | x :: a', y :: b' => (x =? y) && str_eqb a' b'
  | _, _ => false
  end.

(** The decimal digits of a natural number, most significant first. *)
Fixpoint uint_chars (d : Decimal.uint) : pystr :=
  match d with
  | Decimal.Nil => []
  | Decimal.D0 d => 48 :: uint_chars d
  | Decimal.D1 d => 49 :: uint_chars d
  | Decimal.D2 d => 50 :: uint_chars d
  | Decimal.D3 d => 51 :: uint_chars d
  | Decimal.D4 d => 52 :: uint_chars d
  | Decimal.D5 d => 53 :: uint_chars d
  | Decimal.D6 d => 54 :: uint_chars d
  | Decimal.D7 d => 55 :: uint_chars d
  | Decimal.D8 d => 56 :: uint_chars d
  | Decimal.D9 d => 57 :: uint_chars d
  end.

(** [str(n)] for an [int]: what an f-string field [{n}] expands to. *)
Definition str_of_int (z : Z) : pystr :=
  match z with
  | Z0 => [48]
  | Zpos p => uint_chars (Pos.to_uint p)
  | Zneg p => 45 :: uint_chars (Pos.to_uint p)
  end.

(** [s.endswith(t)]. *)
Definition ends_with (s t : pystr) : Prop := exists p, s = p ++ t.

(** [s.startswith(t)]. *)
Definition starts_with (s t : pystr) : Prop := exists q, s = t ++ q.

End PyStr.
Import PyStr.

(** ** Decoded JSON values *)

(** A Python [float] is represented by the literal that [repr] prints for
    it; the three non-finite values have constructors of their own, since
    [json.dumps] spells them differently from [repr]. *)
Inductive pyfloat : Type :=
| FRepr (r : pystr)
| FInf
| FNegInf
| FNan.

Unset Elimination Schemes.

(** What [response.json()] returns: [None], [bool], [int], [float], [str],
    [list] or [dict].  A [dict] is kept as its items in insertion order. *)
Inductive json : Type :=
| JNull
| JBool (b : bool)
| JInt (z : Z)
| JFloat (f : pyfloat)
| JStr (s : pystr)
| JArr (items : list json)
| JObj (members : list (pystr * json)).

Set Elimination Schemes.

Section JsonInduction.

Variable P : json -> Prop.
Hypothesis Hnull : P JNull.
Hypothesis Hbool : forall b, P (JBool b).
Hypothesis Hinteger : forall z, P (JInt z).
Hypothesis Hfloat : forall f, P (JFloat f).
Hypothesis Hstr : forall s, P (JStr s).
Hypothesis Harr : forall items, Forall P items -> P (JArr items).
Hypothesis Hobj :
  forall members, Forall (fun kv => P (snd kv)) members -> P (JObj members).

Fixpoint json_ind (v : json) : P v :=
  match v with
  | JNull => Hnull
  | JBool b => Hbool b
  | JInt z => Hinteger z
  | JFloat f => Hfloat f
  | JStr s => Hstr s
  | JArr items =>
      Harr items
        ((fix all (l : list json) : Forall P l :=
            match l with
            | [] => Forall_nil _
            | x :: l' => Forall_cons x (json_ind x) (all l')
            end) items)
  | JObj members =>
      Hobj members
        ((fix all (l : list (pystr * json))
            : Forall (fun kv => P (snd kv)) l :=
            match l with
            | [] => Forall_nil _
            | kv :: l' => Forall_cons kv (json_ind (snd kv)) (all l')
            end) members)
  end.

End JsonInduction.

(** ** Python semantics used by the tools *)

Module Py.

(** A float literal denotes zero when every digit of its mantissa is
    [0]: the digits before an exponent marker, [e] or [E]. *)
Fixpoint mantissa_is_zero (r : pystr) : bool :=
  match r with
  | [] => true
  | c :: r' =>
      if (c =? 101) || (c =? 69) then true
      else if (49 <=? c) && (c <=? 57) then false
      else mantissa_is_zero r'
  end.

Definition float_truthy (f : pyfloat) : bool :=
  match f with
  | FRepr r => negb (mantissa_is_zero r)
  | FInf | FNegInf | FNan => true
  end.

(** [bool(v)]: the test behind [if not v]. *)
Definition truthy (v : json) : bool :=
  match v with
  | JNull => false
  | JBool b => b
  | JInt z => negb (Z.eqb z 0)
  | JFloat f => float_truthy f
  | JStr s => match s with [] => false | _ => true end
  | JArr items => match items with [] => false | _ => true end
  | JObj members => match members with [] => false | _ => true end
  end.

(** [d.get(key)] on the items of a dictionary. *)
Fixpoint lookup (key : pystr) (members : list (pystr * json)) : option json :=
  match members with
  | [] => None
  | (k, v) :: rest => if str_eqb k key then Some v else lookup key rest
  end.

(** Exceptions that reach the caller of a tool. *)
Inductive exn : Type :=
| AttributeError (attribute : pystr).

Inductive outcome (A : Type) : Type :=
| Returned (a : A)
| Raised (e : exn).
Arguments Returned {A} a.
Arguments Raised {A} e.

(** [data.get(key, default)].  Only a [dict] has the method; on any
    other value the attribute lookup raises [AttributeError]. *)
Definition get (data : json) (key : pystr) (default : json) : outcome json :=
  match data with
  | JObj members =>
      match lookup key members with
      | Some v => Returned v
      | None => Returned default
      end
  | _ => Raised (AttributeError (lit "get"))
  end.

End Py.
Import Py.

(** ** [json.dumps(value, indent=2)] *)

Module Encoder.

(** One lower-case hexadecimal digit, as ['{0:04x}'.format] prints it. *)
Definition hex_digit (d : N) : N := if d <? 10 then 48 + d else 87 + d.

(** ['\\u{0:04x}'.format(n)] for [n] below [0x10000]. *)
Definition u_escape (n : N) : pystr :=
  [92; 117; hex_digit (n / 4096); hex_digit ((n / 256) mod 16);
   hex_digit ((n / 16) mod 16); hex_digit (n mod 16)].

(** The replacement [encode_basestring_ascii] makes for one character:
    the short escapes of [ESCAPE_DCT], the printable ASCII characters
    as they are, a [\uXXXX] escape below [0x10000] and a surrogate pair
    above. *)
Definition escape_char (c : N) : pystr :=
  if c =? 34 then [92; 34]
  else if c =? 92 then [92; 92]
  else if c =? 8 then [92; 98]
  else if c =? 12 then [92; 102]
  else if c =? 10 then [92; 110]
  else if c =? 13 then [92; 114]
  else if c =? 9 then [92; 116]
  else if (32 <=? c) && (c <=? 126) then [c]
  else if c <? 65536 then u_escape c
  else
    let n := c - 65536 in
    let s1 := N.lor 55296 (N.land (N.shiftr n 10) 1023) in
    let s2 := N.lor 56320 (N.land n 1023) in
    u_escape s1 ++ u_escape s2.

Definition encode_basestring_ascii (s : pystr) : pystr :=
  [34] ++ flat_map escape_char s ++ [34].

(** [floatstr]: [repr] for a finite float, and the three JavaScript
    spellings otherwise. *)
Definition floatstr (f : pyfloat) : pystr :=
  match f with
  | FRepr r => r
  | FInf => lit "Infinity"
  | FNegInf => lit "-Infinity"
  | FNan => lit "NaN"
  end.

(** A line break followed by [level] indentation steps of two spaces. *)
Definition newline_indent (level : nat) : pystr :=
  10 :: repeat 32 (2 * level)%nat.

(** The items of a list after the first: each one behind the item
    separator and the line break. *)
Definition more_items (sep : pystr) (enc : json -> pystr)
  : list json -> pystr :=
  fix more (l : list json) : pystr :=
    match l with
    | [] => []
    | y :: l' => [44] ++ sep ++ enc y ++ more l'
    end.

(** The same for the members of a dict, each key followed by the key
    separator. *)
Definition more_members (sep : pystr) (enc : json -> pystr)
  : list (pystr * json) -> pystr :=
  fix more (l : list (pystr * json)) : pystr :=
    match l with
    | [] => []
    | (k', y) :: l' =>
        [44] ++ sep ++ encode_basestring_ascii k' ++ [58; 32]
        ++ enc y ++ more l'
    end.

(** [_iterencode] with [indent=2], [item_separator=','] and
    [key_separator=': '], concatenated. *)
Fixpoint iterencode (level : nat) (v : json) : pystr :=
  match v with
  | JNull => lit "null"
  | JBool true => lit "true"
  | JBool false => lit "false"
  | JInt z => str_of_int z
  | JFloat f => floatstr f
  | JStr s => encode_basestring_ascii s
  | JArr [] => lit "[]"
  | JArr (x :: xs) =>
      [91] ++ newline_indent (S level) ++ iterencode (S level) x
      ++ more_items (newline_indent (S level)) (iterencode (S level)) xs
      ++ newline_indent level ++ [93]
  | JObj [] => lit "{}"
  | JObj ((k, x) :: ms) =>
      [123] ++ newline_indent (S level)
      ++ encode_basestring_ascii k ++ [58; 32] ++ iterencode (S level) x
      ++ more_members (newline_indent (S level)) (iterencode (S level)) ms
      ++ newline_indent level ++ [125]
  end.

Definition dumps (v : json) : pystr := iterencode 0 v.

End Encoder.
Import Encoder.

(** ** The network and the monad of a tool call *)

Module Net.

Record request : Type := {
  url : pystr;
  headers : list (pystr * pystr);
  timeout : N
}.

(** What [client.get], [raise_for_status] and [response.json()] come to:
    a decoded body, or an exception whose [str(e)] is the message. *)
Inductive response : Type :=
| Decoded (body : json)
| Failed (message : pystr).

(** The surroundings of one call: the process environment and the
    upstream server. *)
Record world : Type := {
  api_key : option pystr;
  serve : request -> response
}.

(** A computation reads the world, appends the requests it sends to the
    log and returns or raises. *)
Definition IO (A : Type) : Type :=
  world -> list request -> outcome A * list request.

Definition ret {A} (a : A) : IO A := fun _ log => (Returned a, log).

Definition bind {A B} (m : IO A) (k : A -> IO B) : IO B :=
  fun w log =>
    match m w log with
    | (Returned a, log') => k a w log'
    | (Raised e, log') => (Raised e, log')
    end.

Definition lift {A} (o : outcome A) : IO A := fun _ log => (o, log).

Definition environ_get : IO (option pystr) :=
  fun w log => (Returned (api_key w), log).

Definition client_get (r : request) : IO response :=
  fun w log => (Returned (serve w r), log ++ [r]).

Definition run {A} (m : IO A) (w : world) : outcome A * list request :=
  m w [].

(** The value a call hands back to the host. *)
Definition result {A} (m : IO A) (w : world) : outcome A := fst (run m w).

(** The URLs a call requested, in order. *)
Definition sent {A} (m : IO A) (w : world) : list pystr :=
  map url (snd (run m w)).

End Net.
Import Net.

Declare Scope io_scope.
Delimit Scope io_scope with io.
Notation "x <- m ;; k" := (bind m (fun x => k))
  (at level 61, m at next level, right associativity) : io_scope.

(** ** The server *)

Module Server.

Local Open Scope io_scope.

Definition FINANCIAL_DATASETS_API_BASE : pystr :=
  lit "https://api.financialdatasets.ai".

(** [make_request]: one GET with the API key header when the variable
    is set and not empty, a timeout of 30 seconds, and every exception
    of the request turned into the dictionary [{"Error": str(e)}]. *)
Definition make_request (url : pystr) : IO json :=
  api_key <- environ_get ;;
  let headers :=
    match api_key with
    | Some (c :: key) => [(lit "X-API-KEY", c :: key)]
    | _ => []
    end in
  response <- client_get {| url := url; headers := headers; timeout := 30 |} ;;
  match response with
  | Decoded body => ret body
  | Failed e => ret (JObj [(lit "Error", JStr e)])
  end.

Definition get_income_statements
    (ticker cutoff_date period : pystr) (limit : Z) : IO pystr :=
  let url :=
    FINANCIAL_DATASETS_API_BASE ++ lit "/financials/income-statements/?ticker="
    ++ ticker ++ lit "&period=" ++ period ++ lit "&limit=" ++ str_of_int limit
    ++ lit "&report_period_lte=" ++ cutoff_date in
  data <- make_request url ;;
  if negb (truthy data) then
    ret (lit "Unable to fetch income statements or no income statements found.")
  else
    income_statements <- lift (get data (lit "income_statements") (JArr [])) ;;
    if negb (truthy income_statements) then
      ret (lit "Unable to fetch income statements or no income statements found.")
    else ret (dumps income_statements).

Definition get_balance_sheets
    (ticker cutoff_date period : pystr) (limit : Z) : IO pystr :=
  let url :=
    FINANCIAL_DATASETS_API_BASE ++ lit "/financials/balance-sheets/?ticker="
    ++ ticker ++ lit "&period=" ++ period ++ lit "&limit=" ++ str_of_int limit
    ++ lit "&report_period_lte=" ++ cutoff_date in
  data <- make_request url ;;
  if negb (truthy data) then
    ret (lit "Unable to fetch balance sheets or no balance sheets found.")
  else
    balance_sheets <- lift (get data (lit "balance_sheets") (JArr [])) ;;
    if negb (truthy balance_sheets) then
      ret (lit "Unable to fetch balance sheets or no balance sheets found.")
    else ret (dumps balance_sheets).

Definition get_cash_flow_statements
    (ticker cutoff_date period : pystr) (limit : Z) : IO pystr :=
  let url :=
    FINANCIAL_DATASETS_API_BASE ++ lit "/financials/cash-flow-statements/?ticker="
    ++ ticker ++ lit "&period=" ++ period ++ lit "&limit=" ++ str_of_int limit
    ++ lit "&report_period_lte=" ++ cutoff_date in
  data <- make_request url ;;
  if negb (truthy data) then
    ret (lit "Unable to fetch cash flow statements or no cash flow statements found.")
  else
    cash_flow_statements <- lift (get data (lit "cash_flow_statements") (JArr [])) ;;
    if negb (truthy cash_flow_statements) then
      ret (lit "Unable to fetch cash flow statements or no cash flow statements found.")
    else ret (dumps cash_flow_statements).

Definition get_historical_stock_prices
    (ticker start_date end_date cutoff_date interval : pystr)
    (interval_multiplier : Z) : IO pystr :=
  let end_date := if str_gt end_date cutoff_date then cutoff_date else end_date in
  let url :=
    FINANCIAL_DATASETS_API_BASE ++ lit "/prices/?ticker=" ++ ticker
    ++ lit "&interval=" ++ interval
    ++ lit "&interval_multiplier=" ++ str_of_int interval_multiplier
    ++ lit "&start_date=" ++ start_date ++ lit "&end_date=" ++ end_date in
  data <- make_request url ;;
  if negb (truthy data) then
    ret (lit "Unable to fetch prices or no prices found.")
  else
    prices <- lift (get data (lit "prices") (JArr [])) ;;
    if negb (truthy prices) then
      ret (lit "Unable to fetch prices or no prices found.")
    else ret (dumps prices).

Definition get_company_news (ticker cutoff_date : pystr) : IO pystr :=
  let url :=
    FINANCIAL_DATASETS_API_BASE ++ lit "/news/?limit=20&end_date=" ++ cutoff_date
    ++ lit "&ticker=" ++ ticker in
  data <- make_request url ;;
  if negb (truthy data) then
    ret (lit "Unable to fetch news or no news found.")
  else
    news <- lift (get data (lit "news") (JArr [])) ;;
    if negb (truthy news) then
      ret (lit "Unable to fetch news or no news found.")
    else ret (dumps news).

Definition get_available_crypto_tickers (cutoff_date : pystr) : IO pystr :=
  let url := FINANCIAL_DATASETS_API_BASE ++ lit "/crypto/prices/tickers" in
  data <- make_request url ;;
  if negb (truthy data) then
    ret (lit "Unable to fetch available crypto tickers or no available crypto tickers found.")
  else
    tickers <- lift (get data (lit "tickers") (JArr [])) ;;
    ret (dumps tickers).

Definition get_crypto_prices
    (ticker start_date end_date cutoff_date interval : pystr)
    (interval_multiplier : Z) : IO pystr :=
  let end_date := if str_gt end_date cutoff_date then cutoff_date else end_date in
  let url :=
    FINANCIAL_DATASETS_API_BASE ++ lit "/crypto/prices/?ticker=" ++ ticker
    ++ lit "&interval=" ++ interval
    ++ lit "&interval_multiplier=" ++ str_of_int interval_multiplier
    ++ lit "&start_date=" ++ start_date ++ lit "&end_date=" ++ end_date in
  data <- make_request url ;;
  if negb (truthy data) then
    ret (lit "Unable to fetch prices or no prices found.")
  else
    prices <- lift (get data (lit "prices") (JArr [])) ;;
    if negb (truthy prices) then
      ret (lit "Unable to fetch prices or no prices found.")
    else ret (dumps prices).

Definition get_historical_crypto_prices
    (ticker start_date end_date cutoff_date interval : pystr)
    (interval_multiplier : Z) : IO pystr :=
  let end_date := if str_gt end_date cutoff_date then cutoff_date else end_date in
  let url :=
    FINANCIAL_DATASETS_API_BASE ++ lit "/crypto/prices/?ticker=" ++ ticker
    ++ lit "&interval=" ++ interval
    ++ lit "&interval_multiplier=" ++ str_of_int interval_multiplier
    ++ lit "&start_date=" ++ start_date ++ lit "&end_date=" ++ end_date in
  data <- make_request url ;;
  if negb (truthy data) then
    ret (lit "Unable to fetch prices or no prices found.")
  else
    prices <- lift (get data (lit "prices") (JArr [])) ;;
    if negb (truthy prices) then
      ret (lit "Unable to fetch prices or no prices found.")
    else ret (dumps prices).

(** The tools registered with [@mcp.tool], with the arguments of one
    invocation.  The three tools commented out in the source are not
    registered and have no constructor. *)
Inductive call : Type :=
| IncomeStatements (ticker cutoff_date period : pystr) (limit : Z)
| BalanceSheets (ticker cutoff_date period : pystr) (limit : Z)
| CashFlowStatements (ticker cutoff_date period : pystr) (limit : Z)
| HistoricalStockPrices
    (ticker start_date end_date cutoff_date interval : pystr)
    (interval_multiplier : Z)
| CompanyNews (ticker cutoff_date : pystr)
| AvailableCryptoTickers (cutoff_date : pystr)
| CryptoPrices
    (ticker start_date end_date cutoff_date interval : pystr)
    (interval_multiplier : Z)
| HistoricalCryptoPrices
    (ticker start_date end_date cutoff_date interval : pystr)
    (interval_multiplier : Z).

Definition invoke (c : call) : IO pystr :=
  match c with
  | IncomeStatements t c p l => get_income_statements t c p l
  | BalanceSheets t c p l => get_balance_sheets t c p l
  | CashFlowStatements t c p l => get_cash_flow_statements t c p l
  | HistoricalStockPrices t s e c i m => get_historical_stock_prices t s e c i m
  | CompanyNews t c => get_company_news t c
  | AvailableCryptoTickers c => get_available_crypto_tickers c
  | CryptoPrices t s e c i m => get_crypto_prices t s e c i m
  | HistoricalCryptoPrices t s e c i m => get_historical_crypto_prices t s e c i m
  end.

(** The message a tool returns when it has nothing to show. *)
Definition not_found (c : call) : pystr :=
  match c with
  | IncomeStatements _ _ _ _ =>
      lit "Unable to fetch income statements or no income statements found."
  | BalanceSheets _ _ _ _ =>
      lit "Unable to fetch balance sheets or no balance sheets found."
  | CashFlowStatements _ _ _ _ =>
      lit "Unable to fetch cash flow statements or no cash flow statements found."
  | HistoricalStockPrices _ _ _ _ _ _ | CryptoPrices _ _ _ _ _ _
  | HistoricalCryptoPrices _ _ _ _ _ _ =>
      lit "Unable to fetch prices or no prices found."
  | CompanyNews _ _ => lit "Unable to fetch news or no news found."
  | AvailableCryptoTickers _ =>
      lit "Unable to fetch available crypto tickers or no available crypto tickers found."
  end.

(** The field of the body a tool extracts. *)
Definition envelope (c : call) : pystr :=
  match c with
  | IncomeStatements _ _ _ _ => lit "income_statements"
  | BalanceSheets _ _ _ _ => lit "balance_sheets"
  | CashFlowStatements _ _ _ _ => lit "cash_flow_statements"
  | HistoricalStockPrices _ _ _ _ _ _ | CryptoPrices _ _ _ _ _ _
  | HistoricalCryptoPrices _ _ _ _ _ _ => lit "prices"
  | CompanyNews _ _ => lit "news"
  | AvailableCryptoTickers _ => lit "tickers"
  end.

End Server.
Import Server.

(** ** [json.loads] *)

Module Decoder.

Definition is_digit (c : N) : bool := (48 <=? c) && (c <=? 57).

(** [WHITESPACE]: space, tab, line feed, carriage return. *)
Definition is_ws (c : N) : bool :=
  (c =? 32) || (c =? 9) || (c =? 10) || (c =? 13).

Fixpoint skip_ws (s : pystr) : pystr :=
  match s with
  | c :: s' => if is_ws c then skip_ws s' else s
  | [] => []
  end.

(** [s[idx:idx+len(p)] == p], returning what follows. *)
Fixpoint strip_prefix (p s : pystr) : option pystr :=
  match p, s with
  | [], _ => Some s
  | x :: p', y :: s' => if x =? y then strip_prefix p' s' else None
  | _ :: _, [] => None
  end.

(** *** Numbers *)

(** The longest run of digits at the head of [s], and the rest. *)
Fixpoint span_digits (s : pystr) : pystr * pystr :=
  match s with
  | c :: s' =>
      if is_digit c then
        let (ds, r) := span_digits s' in (c :: ds, r)
      else ([], s)
  | [] => ([], [])
  end.

Fixpoint chars_uint (ds : pystr) : Decimal.uint :=
  match ds with
  | [] => Decimal.Nil
  | c :: ds' =>
      let d := chars_uint ds' in
      if c =? 48 then Decimal.D0 d
      else if c =? 49 then Decimal.D1 d
      else if c =? 50 then Decimal.D2 d
      else if c =? 51 then Decimal.D3 d
      else if c =? 52 then Decimal.D4 d
      else if c =? 53 then Decimal.D5 d
      else if c =? 54 then Decimal.D6 d
      else if c =? 55 then Decimal.D7 d
      else if c =? 56 then Decimal.D8 d
      else Decimal.D9 d
  end.

(** [int(text)] for an optional sign and a run of digits. *)
Definition int_of_chars (negative : bool) (ds : pystr) : Z :=
  let n := Z.of_N (N.of_uint (chars_uint ds)) in
  if negative then Z.opp n else n.

(** The integer part of a number whose first digit is [c]: a single [0],
    or [c] and the digits that follow. *)
Definition scan_int (c : N) (s : pystr) : pystr * pystr :=
  if c =? 48 then ([c], s)
  else let (ds, r) := span_digits s in (c :: ds, r).

(** The fraction: a point and at least one digit, or nothing. *)
Definition scan_frac (s : pystr) : pystr * pystr :=
  match s with
  | p :: d :: s' =>
      if (p =? 46) && is_digit d then
        let (ds, r) := span_digits s' in (p :: d :: ds, r)
      else ([], s)
  | _ => ([], s)
  end.

(** The exponent: [e] or [E], an optional sign and at least one digit,
    or nothing (an exponent marker without digits is not consumed). *)
Definition scan_exp (s : pystr) : pystr * pystr :=
  match s with
  | e :: s' =>
      if (e =? 101) || (e =? 69) then
        let (sign, s'') :=
          match s' with
          | g :: t => if (g =? 45) || (g =? 43) then ([g], t) else ([], s')
          | [] => ([], s')
          end in
        let (ds, r) := span_digits s'' in
        match ds with
        | [] => ([], s)
        | _ :: _ => (e :: sign ++ ds, r)
        end
      else ([], s)
  | [] => ([], s)
  end.

(** The digits of a number, after its sign. *)
Definition number_body (negative : bool) (s : pystr)
  : option (bool * pystr * pystr * pystr * pystr) :=
  match s with
  | [] => None
  | c :: s2 =>
      if is_digit c then
        let (int_part, s3) := scan_int c s2 in
        let (frac, s4) := scan_frac s3 in
        let (exponent, s5) := scan_exp s4 in
        Some (negative, int_part, frac, exponent, s5)
      else None
  end.

(** The pieces of the number at the head of [s], after [NUMBER_RE]:
    sign, integer part, fraction, exponent, and what follows. *)
Definition number_token (s : pystr)
  : option (bool * pystr * pystr * pystr * pystr) :=
  match s with
  | c :: s' => if c =? 45 then number_body true s' else number_body false s
  | [] => None
  end.

(** [match_number]: an [int] when there is neither fraction nor
    exponent, a [float] otherwise. *)
Definition match_number (s : pystr) : option (json * pystr) :=
  match number_token s with
  | None => None
  | Some (negative, int_part, frac, exponent, rest) =>
      match frac, exponent with
      | [], [] => Some (JInt (int_of_chars negative int_part), rest)
      | _, _ =>
          let sign := if negative then [45] else [] in
          Some (JFloat (FRepr (sign ++ int_part ++ frac ++ exponent)), rest)
      end
  end.

(** *** Strings *)

Definition hex_value (c : N) : option N :=
  if is_digit c then Some (c - 48)
  else if (97 <=? c) && (c <=? 102) then Some (c - 87)
  else if (65 <=? c) && (c <=? 70) then Some (c - 55)
  else None.

Definition decode_hex4 (a b c d : N) : option N :=
  match hex_value a, hex_value b, hex_value c, hex_value d with
  | Some x, Some y, Some z, Some w => Some (((x * 16 + y) * 16 + z) * 16 + w)
  | _, _, _, _ => None
  end.

Definition is_high_surrogate (c : N) : bool := (55296 <=? c) && (c <=? 56319).
Definition is_low_surrogate (c : N) : bool := (56320 <=? c) && (c <=? 57343).

Definition join_surrogates (hi lo : N) : N :=
  65536 + N.lor (N.shiftl (hi - 55296) 10) (lo - 56320).

(** [BACKSLASH]: the character a one-letter escape stands for. *)
Definition unescape (e : N) : option N :=
  if e =? 34 then Some 34
  else if e =? 92 then Some 92
  else if e =? 47 then Some 47
  else if e =? 98 then Some 8
  else if e =? 102 then Some 12
  else if e =? 110 then Some 10
  else if e =? 114 then Some 13
  else if e =? 116 then Some 9
  else None.

Definition push (c : N) (r : option (pystr * pystr)) : option (pystr * pystr) :=
  match r with
  | Some (s, rest) => Some (c :: s, rest)
  | None => None
  end.

(** [scanstring] in strict mode, entered after the opening quote: the
    decoded string and what follows the closing quote. *)
Fixpoint scanstring (s : pystr) : option (pystr * pystr) :=
  match s with
  | [] => None
  | c :: s1 =>
      if c =? 34 then Some ([], s1)
      else if c =? 92 then
        match s1 with
        | [] => None
        | e :: s2 =>
            if e =? 117 then
              match s2 with
              | a :: b :: c' :: d :: s3 =>
                  match decode_hex4 a b c' d with
                  | None => None
                  | Some uni =>
                      if is_high_surrogate uni then
                        match s3 with
                        | bs :: u :: x1 :: x2 :: x3 :: x4 :: s4 =>
                            if (bs =? 92) && (u =? 117) then
                              match decode_hex4 x1 x2 x3 x4 with
                              | None => None
                              | Some uni2 =>
                                  if is_low_surrogate uni2 then
                                    push (join_surrogates uni uni2) (scanstring s4)
                                  else push uni (scanstring s3)
                              end
                            else push uni (scanstring s3)
                        | _ => push uni (scanstring s3)
                        end
                      else push uni (scanstring s3)
                  end
              | _ => None
              end
            else
              match unescape e with
              | Some ch => push ch (scanstring s2)
              | None => None
              end
        end
      else if c <=? 31 then None
      else push c (scanstring s1)
  end.

(** *** Dictionaries *)

(** [d[k] = v]: a key already present keeps its place and takes the new
    value; a new key goes to the end. *)
Fixpoint set_item (k : pystr) (v : json) (d : list (pystr * json))
  : list (pystr * json) :=
  match d with
  | [] => [(k, v)]
  | (k', v') :: d' =>
      if str_eqb k' k then (k', v) :: d' else (k', v') :: set_item k v d'
  end.

Definition dict_of_pairs (pairs : list (pystr * json)) : list (pystr * json) :=
  fold_left (fun d kv => set_item (fst kv) (snd kv) d) pairs [].

(** *** Values *)

(** [scan_once] with the loops of [JSONArray] and [JSONObject].  The
    fuel bounds the number of nested calls. *)
Fixpoint scan_once (fuel : nat) (s : pystr) : option (json * pystr) :=
  match fuel with
  | O => None
  | S fuel' =>
      match s with
      | [] => None
      | c :: s' =>
          if c =? 34 then
            match scanstring s' with
            | Some (str, r) => Some (JStr str, r)
            | None => None
            end
          else if c =? 123 then
            match skip_ws s' with
            | [] => None
            | c1 :: s2 =>
                if c1 =? 125 then Some (JObj [], s2)
                else
                  match parse_members fuel' (c1 :: s2) with
                  | Some (pairs, r) => Some (JObj (dict_of_pairs pairs), r)
                  | None => None
                  end
            end
          else if c =? 91 then
            match skip_ws s' with
            | [] => None
            | c1 :: s2 =>
                if c1 =? 93 then Some (JArr [], s2)
                else
                  match parse_items fuel' (c1 :: s2) with
                  | Some (items, r) => Some (JArr items, r)
                  | None => None
                  end
            end
          else
            match strip_prefix (lit "null") s with
            | Some r => Some (JNull, r)
            | None =>
            match strip_prefix (lit "true") s with
            | Some r => Some (JBool true, r)
            | None =>
            match strip_prefix (lit "false") s with
            | Some r => Some (JBool false, r)
            | None =>
            match strip_prefix (lit "NaN") s with
            | Some r => Some (JFloat FNan, r)
            | None =>
            match strip_prefix (lit "Infinity") s with
            | Some r => Some (JFloat FInf, r)
            | None =>
            match strip_prefix (lit "-Infinity") s with
            | Some r => Some (JFloat FNegInf, r)
            | None => match_number s
            end end end end end end
      end
  end

with parse_items (fuel : nat) (s : pystr) : option (list json * pystr) :=
  match fuel with
  | O => None
  | S fuel' =>
      match scan_once fuel' s with
      | None => None
      | Some (v, s1) =>
          match skip_ws s1 with
          | [] => None
          | c :: s2 =>
              if c =? 93 then Some ([v], s2)
              else if c =? 44 then
                match parse_items fuel' (skip_ws s2) with
                | Some (vs, r) => Some (v :: vs, r)
                | None => None
                end
              else None
          end
      end
  end

with parse_members (fuel : nat) (s : pystr)
  : option (list (pystr * json) * pystr) :=
  match fuel with
  | O => None
  | S fuel' =>
      match s with
      | [] => None
      | q :: s0 =>
          if q =? 34 then
            match scanstring s0 with
            | None => None
            | Some (key, s1) =>
                match skip_ws s1 with
                | [] => None
                | colon :: s2 =>
                    if colon =? 58 then
                      match scan_once fuel' (skip_ws s2) with
                      | None => None
                      | Some (v, s3) =>
                          match skip_ws s3 with
                          | [] => None
                          | c :: s4 =>
                              if c =? 125 then Some ([(key, v)], s4)
                              else if c =? 44 then
                                match parse_members fuel' (skip_ws s4) with
                                | Some (kvs, r) => Some ((key, v) :: kvs, r)
                                | None => None
                                end
                              else None
                          end
                      end
                    else None
                end
            end
          else None
      end
  end.

(** [json.loads(s)] on a [str]: no byte-order mark, one value between
    optional whitespace, nothing after it. *)
Definition loads (s : pystr) : option json :=
  if match s with c :: _ => c =? 65279 | [] => false end then None
  else
    match scan_once (S (List.length s)) (skip_ws s) with
    | Some (v, r) =>
        match skip_ws r with
        | [] => Some v
        | _ :: _ => None
        end
    | None => None
    end.

End Decoder.
Import Decoder.

(** ** Values that [response.json()] can produce *)

Module WellFormed.

(** A [str] that a decoder of well-formed text returns: every code
    point is below [0x110000], and no high surrogate is followed by a
    low one (the decoder joins such a pair into one character). *)
Fixpoint str_ok (s : pystr) : bool :=
  match s with
  | [] => true
  | c :: s' =>
      (c <? 1114112)
      && negb (is_high_surrogate c
               && match s' with
                  | c' :: _ => is_low_surrogate c'
                  | [] => false
                  end)
      && str_ok s'
  end.

(** A finite float is spelled by a literal that [NUMBER_RE] reads to
    its end as a float.  [nan] is left out: it differs from every
    value, itself included, so nothing decodes to a value equal to it. *)
Definition float_ok (f : pyfloat) : bool :=
  match f with
  | FRepr r =>
      match number_token r with
      | Some (_, _, frac, exponent, []) =>
          match frac, exponent with
          | [], [] => false
          | _, _ => true
          end
      | _ => false
      end
  | FInf | FNegInf => true
  | FNan => false
  end.

(** The keys of a dictionary are pairwise different. *)
Fixpoint keys_unique (members : list (pystr * json)) : bool :=
  match members with
  | [] => true
  | (k, _) :: rest =>
      negb (existsb (fun kv => str_eqb (fst kv) k) rest) && keys_unique rest
  end.

Fixpoint json_ok (v : json) : bool :=
  match v with
  | JNull | JBool _ | JInt _ => true
  | JFloat f => float_ok f
  | JStr s => str_ok s
  | JArr items => forallb json_ok items
  | JObj members =>
      keys_unique members
      && forallb (fun kv => str_ok (fst kv) && json_ok (snd kv)) members
  end.

End WellFormed.
Import WellFormed.

(** ** Reading a URL as an endpoint with query parameters *)

Module Query.

Definition render_param (kv : pystr * pystr) : pystr :=
  fst kv ++ [61] ++ snd kv.

(** [k1=v1&k2=v2&...]. *)
Fixpoint render_query (params : list (pystr * pystr)) : pystr :=
  match params with
  | [] => []
  | kv :: rest =>
      match rest with
      | [] => render_param kv
      | _ :: _ => render_param kv ++ [38] ++ render_query rest
      end
  end.

(** The URL of a path of the API with the given query parameters. *)
Definition endpoint (path : pystr) (params : list (pystr * pystr)) : pystr :=
  FINANCIAL_DATASETS_API_BASE ++ path ++ [63] ++ render_query params.

End Query.
Import Query.

(** ** The eight tools as one table-driven adapter *)

Module Generic.

(** The headers [make_request] sends. *)
Definition key_headers (w : world) : list (pystr * pystr) :=
  match api_key w with
  | Some (c :: key) => [(lit "X-API-KEY", c :: key)]
  | _ => []
  end.

Definition request_for (w : world) (u : pystr) : request :=
  {| url := u; headers := key_headers w; timeout := 30 |}.

(** What [make_request] returns for a response. *)
Definition payload (r : response) : json :=
  match r with
  | Decoded body => body
  | Failed e => JObj [(lit "Error", JStr e)]
  end.

(** Every tool but the ticker listing tests the extracted field. *)
Definition checks_field (c : call) : bool :=
  match c with
  | AvailableCryptoTickers _ => false
  | _ => true
  end.

(** What a tool makes of the value [make_request] returned. *)
Definition respond (c : call) (data : json) : outcome pystr :=
  if negb (truthy data) then Returned (not_found c)
  else
    match get data (envelope c) (JArr []) with
    | Raised e => Raised e
    | Returned field =>
        if checks_field c && negb (truthy field) then Returned (not_found c)
        else Returned (dumps field)
    end.

Definition statement_params (ticker period : pystr) (limit : Z) (cutoff_date : pystr)
  : list (pystr * pystr) :=
  [(lit "ticker", ticker); (lit "period", period);
   (lit "limit", str_of_int limit); (lit "report_period_lte", cutoff_date)].

Definition price_params (ticker interval : pystr) (interval_multiplier : Z)
    (start_date end_date : pystr) : list (pystr * pystr) :=
  [(lit "ticker", ticker); (lit "interval", interval);
   (lit "interval_multiplier", str_of_int interval_multiplier);
   (lit "start_date", start_date); (lit "end_date", end_date)].

(** The URL a tool requests. *)
Definition target (c : call) : pystr :=
  match c with
  | IncomeStatements t c p l =>
      endpoint (lit "/financials/income-statements/") (statement_params t p l c)
  | BalanceSheets t c p l =>
      endpoint (lit "/financials/balance-sheets/") (statement_params t p l c)
  | CashFlowStatements t c p l =>
      endpoint (lit "/financials/cash-flow-statements/") (statement_params t p l c)
  | HistoricalStockPrices t s e c i m =>
      endpoint (lit "/prices/")
        (price_params t i m s (if str_gt e c then c else e))
  | CompanyNews t c =>
      endpoint (lit "/news/")
        [(lit "limit", lit "20"); (lit "end_date", c); (lit "ticker", t)]
  | AvailableCryptoTickers _ =>
      FINANCIAL_DATASETS_API_BASE ++ lit "/crypto/prices/tickers"
  | CryptoPrices t s e c i m | HistoricalCryptoPrices t s e c i m =>
      endpoint (lit "/crypto/prices/")
        (price_params t i m s (if str_gt e c then c else e))
  end.

End Generic.
Import Generic.

(** ** Measures and sample worlds used by the proofs *)

Module Samples.

(** Fuel that [scan_once] needs to read back the encoding of a value. *)
Fixpoint weight (v : json) : nat :=
  match v with
  | JArr items => S (fold_right (fun x n => S (weight x + n)) O items)
  | JObj members => S (fold_right (fun kv n => S (weight (snd kv) + n)) O members)
  | _ => 1%nat
  end.

(** Text that cannot continue a number. *)
Definition stops_number (rest : pystr) : Prop :=
  match rest with
  | [] => True
  | c :: _ =>
      is_digit c = false /\ c <> 46 /\ c <> 101 /\ c <> 69 /\ c <> 45 /\ c <> 43
  end.

(** Text that does not start with the [\uXXXX] escape of a low
    surrogate. *)
Definition no_low_escape (tail : pystr) : Prop :=
  forall x1 x2 x3 x4 s4,
    tail = 92 :: 117 :: x1 :: x2 :: x3 :: x4 :: s4 ->
    exists u, decode_hex4 x1 x2 x3 x4 = Some u /\ is_low_surrogate u = false.

(** What may follow a value in the text [dumps] produces: the end, a
    comma or a line break. *)
Definition delimited (rest : pystr) : Prop :=
  match rest with
  | [] => True
  | c :: _ => c = 44 \/ c = 10
  end.

(** The first character of a number: a digit, or a minus sign before a
    digit. *)
Definition number_head (s : pystr) : Prop :=
  (exists c t, s = c :: t /\ is_digit c = true)
  \/ (exists c t, s = 45 :: c :: t /\ is_digit c = true).

(** Text that starts with the first character of a value: neither
    whitespace, a closing bracket nor a byte-order mark. *)
Definition starts_value (s : pystr) : Prop :=
  match s with
  | c :: _ => is_ws c = false /\ c <> 93 /\ c <> 125 /\ c <> 65279
  | [] => False
  end.

(** [scan_once] reads the text of [v] back, at any indentation level
    and before any text that can follow a value, given fuel for the
    nesting of [v]. *)
Definition reads_back (v : json) : Prop :=
  forall fuel level rest,
    delimited rest -> (weight v <= fuel)%nat ->
    scan_once fuel (iterencode level v ++ rest) = Some (v, rest).

(** A server that answers every request with the same response. *)
Definition constant_world (r : response) : world :=
  {| api_key := Some (lit "secret"); serve := fun _ => r |}.

(** HTTP 500: [raise_for_status] raises. *)
Definition failing_world : world :=
  constant_world (Failed (lit "Server error '500 Internal Server Error'")).

(** A 200 response whose body is the JSON array [[1]]. *)
Definition array_world : world :=
  constant_world (Decoded (JArr [JInt 1])).

(** A 200 response whose body is [{"tickers": []}]. *)
Definition empty_tickers_world : world :=
  constant_world (Decoded (JObj [(lit "tickers", JArr [])])).

(** The body of the scenario of the income statements. *)
Definition income_body : json :=
  JObj [(lit "income_statements",
         JArr [JObj [(lit "revenue", JInt 100)];
               JObj [(lit "revenue", JInt 90)]])].

Definition income_world : world := constant_world (Decoded income_body).

End Samples.
Import Samples.

(** ** Dates and texts used to state further properties *)

Module Dates.

(** [n] in decimal, padded with zeros to [width] digits. *)
Fixpoint zero_padded (width : nat) (n : N) : pystr :=
  match width with
  | O => []
  | S w => zero_padded w (n / 10) ++ [48 + n mod 10]
  end.

(** A date in the [YYYY-MM-DD] format that the docstrings ask for; it is
    also what [strftime("%Y-%m-%d")], the default of [cutoff_date],
    prints for a year of four digits. *)
Definition iso_date (year month day : N) : pystr :=
  zero_padded 4 year ++ [45] ++ zero_padded 2 month ++ [45]
  ++ zero_padded 2 day.

(** The first date is later than the second. *)
Definition later (y m d y' m' d' : N) : bool :=
  if y' <? y then true
  else if y =? y' then
    if m' <? m then true
    else if m =? m' then d' <? d
    else false
  else false.

(** Printable ASCII, or a line feed. *)
Definition printable (c : N) : Prop := c = 10 \/ (32 <= c /\ c <= 126).

(** The characters of a JSON number. *)
Definition number_char (c : N) : Prop :=
  is_digit c = true \/ c = 46 \/ c = 101 \/ c = 69 \/ c = 45 \/ c = 43.

End Dates.
Import Dates.

(** ** The limit on formatting an [int] *)

Module Limits.

(** [str(n)], and with it the f-string field [{n}], raises [ValueError]
    for an [int] of more than [sys.int_max_str_digits] decimal digits,
    4300 unless configured otherwise. *)
Definition int_max_str_digits : N := 4300.

Definition formats_int (z : Z) : Prop :=
  N.of_nat (List.length (str_of_int (Z.abs z))) <= int_max_str_digits.

(** The [int] argument of a call, if it has one, can be formatted, so
    that the tool gets as far as its request. *)
Definition arguments_format (c : call) : Prop :=
  match c with
  | IncomeStatements _ _ _ limit | BalanceSheets _ _ _ limit
  | CashFlowStatements _ _ _ limit => formats_int limit
  | HistoricalStockPrices _ _ _ _ _ m | CryptoPrices _ _ _ _ _ m
  | HistoricalCryptoPrices _ _ _ _ _ m => formats_int m
  | CompanyNews _ _ | AvailableCryptoTickers _ => True
  end.

End Limits.
Import Limits.

(** ** Two tests of [tests/test_financial_datasets_server.py] *)

Module Tests.

(** What pytest reports for a test. *)
Inductive verdict : Type :=
| TestSkipped
| TestPassed
| TestFailed.

(** [pytestmark]: every test of the module is skipped when
    [os.environ.get("FINANCIAL_DATASETS_API_KEY")] is falsy, that is
    unset or empty, in the environment of the test process at import;
    [environ_key] is that value. *)
Definition skipped (environ_key : option pystr) : bool :=
  match environ_key with
  | Some (_ :: _) => false
  | _ => true
  end.

(** [s.startswith(p)] as a test. *)
Fixpoint has_prefix (p s : pystr) : bool :=
  match p, s with
  | [], _ => true
  | x :: p', y :: s' => (x =? y) && has_prefix p' s'
  | _ :: _, [] => false
  end.

(** [p in s] on two [str]: [p] occurs in [s]. *)
Fixpoint is_substring (p s : pystr) : bool :=
  has_prefix p s
  || match s with
     | [] => false
     | _ :: s' => is_substring p s'
     end.

(** [needle in v] for a [str] needle: a key of a dict, an item of a
    list, a substring of a [str]; [None] stands for the [TypeError] that
    the other values raise. *)
Definition contains (needle : pystr) (v : json) : option bool :=
  match v with
  | JStr s => Some (is_substring needle s)
  | JArr items =>
      Some (existsb (fun e => match e with
                              | JStr t => str_eqb t needle
                              | _ => false
                              end) items)
  | JObj members => Some (existsb (fun kv => str_eqb (fst kv) needle) members)
  | _ => None
  end.

(** [assert a in v or b in v]. *)
Definition either_in (a b : pystr) (v : json) : bool :=
  match contains a v with
  | None => false
  | Some true => true
  | Some false =>
      match contains b v with
      | Some true => true
      | _ => false
      end
  end.

(** [test_get_income_statements]: skipped without a key; otherwise it
    passes when its body runs without an exception and without a failed
    assertion. *)
Definition test_get_income_statements (environ_key : option pystr)
    (w : world) : verdict :=
  if skipped environ_key then TestSkipped
  else
    match result (get_income_statements (lit "AAPL") (lit "2024-01-01")
                    (lit "annual") 2) w with
    | Raised _ => TestFailed
    | Returned s =>
        match loads s with
        | Some (JArr []) => TestPassed
        | Some (JArr (first :: _)) =>
            if either_in (lit "revenue") (lit "net_income") first then TestPassed
            else TestFailed
        | _ => TestFailed
        end
    end.

(** [any("BTC" in ticker for ticker in data) or len(data) > 0] on a
    list that is not empty: true unless a membership test raises before
    one succeeds. *)
Fixpoint any_btc_or_nonempty (data : list json) : bool :=
  match data with
  | [] => true
  | ticker :: rest =>
      match contains (lit "BTC") ticker with
      | None => false
      | Some true => true
      | Some false => any_btc_or_nonempty rest
      end
  end.

(** [test_get_available_crypto_tickers]; [today] is the default of
    [cutoff_date], which the test leaves to the tool. *)
Definition test_get_available_crypto_tickers (environ_key : option pystr)
    (today : pystr) (w : world) : verdict :=
  if skipped environ_key then TestSkipped
  else
    match result (get_available_crypto_tickers today) w with
    | Raised _ => TestFailed
    | Returned s =>
        match loads s with
        | Some (JArr []) => TestPassed
        | Some (JArr (JStr t :: rest)) =>
            if any_btc_or_nonempty (JStr t :: rest) then TestPassed else TestFailed
        | _ => TestFailed
        end
    end.

End Tests.
Import Tests.

(** * Proofs *)

(** ** The tools and the generic adapter agree *)

Lemma make_request_run (u : pystr) (w : world) (log : list request) :
  make_request u w log
  = (Returned (payload (serve w (request_for w u))), log ++ [request_for w u]).
Proof.
  cbv beta iota zeta delta [make_request bind environ_get ret client_get request_for key_headers].
  destruct (serve w _); reflexivity.
Qed.

Ltac after_request :=
  match goal with
  | |- context [payload ?r] => generalize (payload r)
  end;
  let data := fresh "data" in
  intro data;
  unfold respond, bind, lift, ret, get;
  destruct data as [| [] | ? | ? | [|? ?] | [|? ?] | [|[? ?] ?]];
  cbn [truthy negb envelope not_found checks_field andb];
  repeat match goal with
    | |- context [if negb ?b then _ else _] => destruct b eqn:?; cbn [negb]
    | |- context [match lookup ?k ?m with _ => _ end] => destruct (lookup k m) eqn:?
    | |- context [if ?b then _ else _] => destruct b eqn:?
    end;
  try reflexivity.

Lemma invoke_run (c : call) (w : world) :
  run (invoke c) w
  = (respond c (payload (serve w (request_for w (target c)))),
     [request_for w (target c)]).
Proof.
  destruct c; unfold run, invoke.
  all: unfold get_income_statements, get_balance_sheets, get_cash_flow_statements,
    get_historical_stock_prices, get_company_news, get_available_crypto_tickers,
    get_crypto_prices, get_historical_crypto_prices; cbv zeta; unfold bind at 1;
    rewrite make_request_run; cbn [app].
  all: match goal with
       | |- context [request_for _ ?u] =>
         match goal with
         | |- _ = (respond ?c _, _) =>
           replace u with (target c) by (vm_compute; reflexivity)
         end
       end.
  all: after_request.
Qed.

Lemma sent_invoke (c : call) (w : world) : sent (invoke c) w = [target c].
Proof. unfold sent. rewrite invoke_run. reflexivity. Qed.

Lemma result_invoke (c : call) (w : world) :
  result (invoke c) w = respond c (payload (serve w (request_for w (target c)))).
Proof. unfold result. rewrite invoke_run. reflexivity. Qed.

(** ** Cutoff enforcement in the requests *)

(** C1: in the three price tools, when [end_date > cutoff_date] the one
    request that is sent carries [cutoff_date] as its [end_date] query
    parameter, and otherwise it carries the caller's [end_date]. *)
Theorem end_date_clamped_to_cutoff
    (w : world) (ticker start_date end_date cutoff_date interval : pystr)
    (interval_multiplier : Z) :
  let params e :=
    [(lit "ticker", ticker); (lit "interval", interval);
     (lit "interval_multiplier", str_of_int interval_multiplier);
     (lit "start_date", start_date); (lit "end_date", e)] in
  let requested e :=
    sent (get_historical_stock_prices ticker start_date end_date cutoff_date
            interval interval_multiplier) w
    = [endpoint (lit "/prices/") (params e)]
    /\ sent (get_crypto_prices ticker start_date end_date cutoff_date
               interval interval_multiplier) w
       = [endpoint (lit "/crypto/prices/") (params e)]
    /\ sent (get_historical_crypto_prices ticker start_date end_date cutoff_date
               interval interval_multiplier) w
       = [endpoint (lit "/crypto/prices/") (params e)] in
  (str_gt end_date cutoff_date = true -> requested cutoff_date)
  /\ (str_gt end_date cutoff_date = false -> requested end_date).
Proof.
  cbv zeta.
  pose proof (sent_invoke (HistoricalStockPrices ticker start_date end_date
    cutoff_date interval interval_multiplier) w) as Hs.
  pose proof (sent_invoke (CryptoPrices ticker start_date end_date
    cutoff_date interval interval_multiplier) w) as Hc.
  pose proof (sent_invoke (HistoricalCryptoPrices ticker start_date end_date
    cutoff_date interval interval_multiplier) w) as Hh.
  cbn [invoke target] in Hs, Hc, Hh. unfold price_params in Hs, Hc, Hh.
  split; intro Hgt; rewrite Hgt in Hs, Hc, Hh; auto.
Qed.

(** The scenario of the spec: an [end_date] of 2025-12-31 with a cutoff
    of 2023-06-30 is requested as 2023-06-30. *)
Lemma end_date_clamped_witness :
  sent (get_historical_stock_prices (lit "AAPL") (lit "2023-01-01")
          (lit "2025-12-31") (lit "2023-06-30") (lit "day") 1) income_world
  = [endpoint (lit "/prices/")
       [(lit "ticker", lit "AAPL"); (lit "interval", lit "day");
        (lit "interval_multiplier", lit "1");
        (lit "start_date", lit "2023-01-01");
        (lit "end_date", lit "2023-06-30")]].
Proof.
  exact (proj1 (proj1 (end_date_clamped_to_cutoff income_world (lit "AAPL")
    (lit "2023-01-01") (lit "2025-12-31") (lit "2023-06-30") (lit "day") 1)
    eq_refl)).
Defined.

(** C2: the three statement tools always send [report_period_lte] set
    to [cutoff_date], whatever the other arguments; there is no
    [end_date] parameter to clamp. *)
Theorem statements_filtered_by_cutoff
    (w : world) (ticker cutoff_date period : pystr) (limit : Z) :
  let params :=
    [(lit "ticker", ticker); (lit "period", period);
     (lit "limit", str_of_int limit);
     (lit "report_period_lte", cutoff_date)] in
  sent (get_income_statements ticker cutoff_date period limit) w
  = [endpoint (lit "/financials/income-statements/") params]
  /\ sent (get_balance_sheets ticker cutoff_date period limit) w
     = [endpoint (lit "/financials/balance-sheets/") params]
  /\ sent (get_cash_flow_statements ticker cutoff_date period limit) w
     = [endpoint (lit "/financials/cash-flow-statements/") params].
Proof.
  cbv zeta.
  repeat split.
  - exact (sent_invoke (IncomeStatements ticker cutoff_date period limit) w).
  - exact (sent_invoke (BalanceSheets ticker cutoff_date period limit) w).
  - exact (sent_invoke (CashFlowStatements ticker cutoff_date period limit) w).
Qed.

(** C6: the news tool sends [limit=20], [end_date] set to [cutoff_date]
    and the ticker; it takes no end date from the caller. *)
Theorem news_bounded_by_cutoff (w : world) (ticker cutoff_date : pystr) :
  sent (get_company_news ticker cutoff_date) w
  = [endpoint (lit "/news/")
       [(lit "limit", lit "20"); (lit "end_date", cutoff_date);
        (lit "ticker", ticker)]].
Proof. exact (sent_invoke (CompanyNews ticker cutoff_date) w). Qed.

(** C7: [get_historical_crypto_prices] and [get_crypto_prices] return
    the same value and send the same request, for all arguments and
    every upstream. *)
Theorem historical_crypto_prices_same_as_crypto_prices
    (w : world) (ticker start_date end_date cutoff_date interval : pystr)
    (interval_multiplier : Z) :
  result (get_historical_crypto_prices ticker start_date end_date cutoff_date
            interval interval_multiplier) w
  = result (get_crypto_prices ticker start_date end_date cutoff_date
              interval interval_multiplier) w
  /\ sent (get_historical_crypto_prices ticker start_date end_date cutoff_date
             interval interval_multiplier) w
     = sent (get_crypto_prices ticker start_date end_date cutoff_date
               interval interval_multiplier) w.
Proof.
  pose proof (invoke_run (HistoricalCryptoPrices ticker start_date end_date
    cutoff_date interval interval_multiplier) w) as Hh.
  pose proof (invoke_run (CryptoPrices ticker start_date end_date
    cutoff_date interval interval_multiplier) w) as Hc.
  cbn [invoke] in Hh, Hc. unfold result, sent. rewrite Hh, Hc.
  split; reflexivity.
Qed.

(** C9: the ticker listing ignores [cutoff_date]: two cutoffs give the
    same request, which is the fixed URL, and the same value. *)
Theorem crypto_tickers_independent_of_cutoff (w : world) (cutoff1 cutoff2 : pystr) :
  sent (get_available_crypto_tickers cutoff1) w
  = [FINANCIAL_DATASETS_API_BASE ++ lit "/crypto/prices/tickers"]
  /\ sent (get_available_crypto_tickers cutoff1) w
     = sent (get_available_crypto_tickers cutoff2) w
  /\ result (get_available_crypto_tickers cutoff1) w
     = result (get_available_crypto_tickers cutoff2) w.
Proof.
  pose proof (invoke_run (AvailableCryptoTickers cutoff1) w) as H1.
  pose proof (invoke_run (AvailableCryptoTickers cutoff2) w) as H2.
  cbn [invoke] in H1, H2. unfold result, sent. rewrite H1, H2.
  repeat split; reflexivity.
Qed.

(** C10: in the three price tools the cutoff touches [end_date] only:
    [ticker], [interval], [interval_multiplier] and [start_date] are sent
    as supplied, whatever [start_date] is, and the [end_date] that is sent
    is the caller's or the cutoff. *)
Theorem cutoff_changes_only_end_date
    (w : world) (ticker start_date end_date cutoff_date interval : pystr)
    (interval_multiplier : Z) :
  exists e,
    (e = end_date \/ e = cutoff_date)
    /\ let params :=
         [(lit "ticker", ticker); (lit "interval", interval);
          (lit "interval_multiplier", str_of_int interval_multiplier);
          (lit "start_date", start_date); (lit "end_date", e)] in
       sent (get_historical_stock_prices ticker start_date end_date cutoff_date
               interval interval_multiplier) w
       = [endpoint (lit "/prices/") params]
       /\ sent (get_crypto_prices ticker start_date end_date cutoff_date
                  interval interval_multiplier) w
          = [endpoint (lit "/crypto/prices/") params]
       /\ sent (get_historical_crypto_prices ticker start_date end_date cutoff_date
                  interval interval_multiplier) w
          = [endpoint (lit "/crypto/prices/") params].
Proof.
  exists (if str_gt end_date cutoff_date then cutoff_date else end_date).
  split; [destruct (str_gt end_date cutoff_date); auto|].
  cbv zeta. repeat split.
  - exact (sent_invoke (HistoricalStockPrices ticker start_date end_date
      cutoff_date interval interval_multiplier) w).
  - exact (sent_invoke (CryptoPrices ticker start_date end_date
      cutoff_date interval interval_multiplier) w).
  - exact (sent_invoke (HistoricalCryptoPrices ticker start_date end_date
      cutoff_date interval interval_multiplier) w).
Qed.

(** A window that starts after the cutoff is still requested, with the
    start date untouched. *)
Example start_after_cutoff_is_sent :
  sent (get_crypto_prices (lit "BTC-USD") (lit "2024-05-01") (lit "2024-06-01")
          (lit "2024-01-01") (lit "day") 1) failing_world
  = [lit "https://api.financialdatasets.ai/crypto/prices/?ticker=BTC-USD&interval=day&interval_multiplier=1&start_date=2024-05-01&end_date=2024-01-01"].
Proof. vm_compute. reflexivity. Qed.

(** ** Failures and empty results *)

(** [make_request] turns a failed request into a dictionary without the
    field any tool extracts. *)
Lemma lookup_error_payload (c : call) (e : pystr) :
  lookup (envelope c) [(lit "Error", JStr e)] = None.
Proof. destruct c; reflexivity. Qed.

(** X1: the seven tools that test the extracted field answer a failed
    request with their fixed message. *)
Lemma failure_gives_not_found (c : call) (w : world) (e : pystr) :
  checks_field c = true ->
  serve w (request_for w (target c)) = Failed e ->
  result (invoke c) w = Returned (not_found c).
Proof.
  intros Hc Hf. rewrite result_invoke, Hf. unfold respond, payload, get.
  cbn [truthy negb]. rewrite lookup_error_payload, Hc. reflexivity.
Qed.

(** C3, at the failing input: the ticker listing answers HTTP 500 with
    the text of an empty array, while a tool that tests the extracted
    field answers the same failure with its fixed message. *)
Theorem crypto_tickers_failure_returns_empty_array :
  result (get_available_crypto_tickers (lit "2024-01-01")) failing_world
  = Returned (lit "[]")
  /\ result (get_company_news (lit "AAPL") (lit "2024-01-01")) failing_world
     = Returned (lit "Unable to fetch news or no news found.").
Proof. split; vm_compute; reflexivity. Qed.

(** The seven tools that test the extracted field answer an empty array
    in the field with their fixed message. *)
Lemma empty_field_gives_not_found (c : call) (w : world)
    (members : list (pystr * json)) :
  checks_field c = true ->
  serve w (request_for w (target c)) = Decoded (JObj members) ->
  lookup (envelope c) members = Some (JArr []) ->
  result (invoke c) w = Returned (not_found c).
Proof.
  intros Hc Hs Hl. rewrite result_invoke, Hs. unfold respond, payload, get.
  destruct members as [|m members]; [reflexivity|].
  cbn [truthy negb]. rewrite Hl, Hc. reflexivity.
Qed.

(** C4, at the failing input: for the body [{"tickers": []}] the ticker
    listing returns the text of the empty array, not its fixed message. *)
Theorem crypto_tickers_empty_list_returns_empty_array :
  result (get_available_crypto_tickers (lit "2024-01-01")) empty_tickers_world
  = Returned (lit "[]")
  /\ loads (lit "[]") = Some (JArr []).
Proof. split; vm_compute; reflexivity. Qed.

(** ** Exceptions *)

(** C5, at the failing input: a 200 response whose body is the JSON
    array [[1]] is truthy and has no method [get], so [data.get] raises
    [AttributeError] out of the tool, which returns no string. *)
Lemma array_body_raises :
  result (get_income_statements (lit "AAPL") (lit "2024-01-01") (lit "annual") 2)
    array_world
  = Raised (AttributeError (lit "get")).
Proof. vm_compute. reflexivity. Qed.

(** * The returned text decodes to the extracted field *)

(** ** Reading back what [json.dumps] wrote: numbers *)

Lemma delimited_stops_number (rest : pystr) : delimited rest -> stops_number rest.
Proof.
  destruct rest as [|c rest]; [easy|].
  intros [-> | ->]; cbn; repeat split; discriminate.
Qed.

Lemma span_digits_sound (s : pystr) :
  s = fst (span_digits s) ++ snd (span_digits s).
Proof.
  induction s as [|c s IH]; [reflexivity|].
  cbn. destruct (is_digit c); [|reflexivity].
  destruct (span_digits s) as [ds r]. cbn in *. now rewrite <- IH.
Qed.

Lemma span_digits_app (s rest : pystr) :
  stops_number rest ->
  span_digits (s ++ rest) = (fst (span_digits s), snd (span_digits s) ++ rest).
Proof.
  intro Hr. induction s as [|c s IH].
  - destruct rest as [|c rest]; [reflexivity|].
    cbn in *. destruct Hr as [-> _]. reflexivity.
  - cbn. destruct (is_digit c); [|reflexivity].
    rewrite IH. destruct (span_digits s). reflexivity.
Qed.

Lemma scan_int_app (c : N) (s rest : pystr) :
  stops_number rest ->
  scan_int c (s ++ rest) = (fst (scan_int c s), snd (scan_int c s) ++ rest).
Proof.
  intro Hr. unfold scan_int. destruct (c =? 48); [reflexivity|].
  rewrite span_digits_app by assumption. destruct (span_digits s). reflexivity.
Qed.

Lemma scan_frac_app (s rest : pystr) :
  stops_number rest ->
  scan_frac (s ++ rest) = (fst (scan_frac s), snd (scan_frac s) ++ rest).
Proof.
  intro Hr. destruct s as [|p [|d s]].
  - destruct rest as [|c [|d rest]]; try reflexivity.
    cbn in *. destruct Hr as (_ & Hp & _).
    destruct (N.eqb_spec c 46); [contradiction|reflexivity].
  - destruct rest as [|c rest]; [reflexivity|].
    cbn in *. destruct Hr as (-> & _). now rewrite andb_false_r.
  - cbn. destruct ((p =? 46) && is_digit d); [|reflexivity].
    rewrite span_digits_app by assumption. destruct (span_digits s). reflexivity.
Qed.

Lemma scan_exp_app (s rest : pystr) :
  stops_number rest ->
  scan_exp (s ++ rest) = (fst (scan_exp s), snd (scan_exp s) ++ rest).
Proof.
  intro Hr.
  assert (Hnil : span_digits rest = ([], rest)).
  { destruct rest as [|c rest]; [reflexivity|].
    cbn in *. destruct Hr as (-> & _). reflexivity. }
  destruct s as [|e s].
  - destruct rest as [|c rest]; [reflexivity|].
    cbn in Hr. destruct Hr as (_ & _ & He & HE & _). cbn.
    destruct (N.eqb_spec c 101); [contradiction|].
    destruct (N.eqb_spec c 69); [contradiction|reflexivity].
  - cbn. destruct ((e =? 101) || (e =? 69)); [|reflexivity].
    destruct s as [|g t].
    + cbn [app]. destruct rest as [|c rest]; [reflexivity|].
      cbn in Hr. destruct Hr as (Hd & _ & _ & _ & Hm & Hp).
      destruct (N.eqb_spec c 45); [contradiction|].
      destruct (N.eqb_spec c 43); [contradiction|].
      cbn. rewrite Hd. reflexivity.
    + cbn [app]. destruct ((g =? 45) || (g =? 43)).
      * rewrite span_digits_app by assumption.
        destruct (span_digits t) as [[|d ds] r]; reflexivity.
      * change (g :: t ++ rest) with ((g :: t) ++ rest).
        rewrite span_digits_app by assumption.
        destruct (span_digits (g :: t)) as [[|d ds] r]; reflexivity.
Qed.

Lemma number_body_app (negative : bool) (s rest : pystr) :
  stops_number rest ->
  number_body negative (s ++ rest)
  = match number_body negative s with
    | Some (n, int_part, frac, exponent, r) =>
        Some (n, int_part, frac, exponent, r ++ rest)
    | None => None
    end.
Proof.
  intro Hr. destruct s as [|c s].
  - destruct rest as [|c rest]; [reflexivity|].
    cbn in *. destruct Hr as (-> & _). reflexivity.
  - cbn. destruct (is_digit c); [|reflexivity].
    rewrite scan_int_app by assumption.
    destruct (scan_int c s) as [ip s3]. cbn [fst snd].
    rewrite scan_frac_app by assumption.
    destruct (scan_frac s3) as [fr s4]. cbn [fst snd].
    rewrite scan_exp_app by assumption.
    destruct (scan_exp s4) as [ex s5]. reflexivity.
Qed.

(** A number followed by text that cannot continue it is read as the
    same token, with that text left over. *)
Lemma number_token_app (s rest : pystr) :
  stops_number rest ->
  number_token (s ++ rest)
  = match number_token s with
    | Some (negative, int_part, frac, exponent, r) =>
        Some (negative, int_part, frac, exponent, r ++ rest)
    | None => None
    end.
Proof.
  intro Hr. destruct s as [|c s].
  - destruct rest as [|c rest]; [reflexivity|].
    cbn in *. destruct Hr as (Hd & _ & _ & _ & Hm & _).
    destruct (N.eqb_spec c 45); [contradiction|].
    cbn. rewrite Hd. reflexivity.
  - cbn. destruct (c =? 45).
    + apply number_body_app; assumption.
    + apply (number_body_app false (c :: s)); assumption.
Qed.

Lemma scan_int_sound (c : N) (s : pystr) :
  c :: s = fst (scan_int c s) ++ snd (scan_int c s).
Proof.
  unfold scan_int. destruct (c =? 48); [reflexivity|].
  pose proof (span_digits_sound s) as H.
  destruct (span_digits s). cbn in *. now rewrite H.
Qed.

Lemma scan_frac_sound (s : pystr) :
  s = fst (scan_frac s) ++ snd (scan_frac s).
Proof.
  destruct s as [|p [|d s]]; try reflexivity.
  cbn. destruct ((p =? 46) && is_digit d); [|reflexivity].
  pose proof (span_digits_sound s) as H.
  destruct (span_digits s). cbn in *. now rewrite H.
Qed.

Lemma scan_exp_sound (s : pystr) :
  s = fst (scan_exp s) ++ snd (scan_exp s).
Proof.
  destruct s as [|e s]; [reflexivity|].
  cbn. destruct ((e =? 101) || (e =? 69)); [|reflexivity].
  destruct s as [|g t]; [reflexivity|].
  destruct ((g =? 45) || (g =? 43)).
  - pose proof (span_digits_sound t) as H.
    destruct (span_digits t) as [[|d ds] r]; [reflexivity|].
    cbn in *. now rewrite H.
  - pose proof (span_digits_sound (g :: t)) as H.
    destruct (span_digits (g :: t)) as [[|d ds] r]; [reflexivity|].
    cbn [fst snd app] in *. now rewrite H.
Qed.

Lemma number_body_sound (negative : bool) (s : pystr) n ip fr ex r :
  number_body negative s = Some (n, ip, fr, ex, r) ->
  n = negative /\ s = ip ++ fr ++ ex ++ r
  /\ exists c s', s = c :: s' /\ is_digit c = true.
Proof.
  destruct s as [|c s]; [discriminate|]. cbn.
  destruct (is_digit c) eqn:Hc; [|discriminate].
  pose proof (scan_int_sound c s) as Hi.
  destruct (scan_int c s) as [ip' s3].
  pose proof (scan_frac_sound s3) as Hf.
  destruct (scan_frac s3) as [fr' s4].
  pose proof (scan_exp_sound s4) as He.
  destruct (scan_exp s4) as [ex' s5].
  cbn [fst snd] in *. intros [= <- <- <- <- <-].
  split; [reflexivity|]. split; [|eauto].
  rewrite Hi, Hf, He. reflexivity.
Qed.

(** The literal of a well-formed float is the text of its token. *)
Lemma number_token_sound (s : pystr) n ip fr ex :
  number_token s = Some (n, ip, fr, ex, []) ->
  s = (if n then [45] else []) ++ ip ++ fr ++ ex
  /\ ((exists c s', s = c :: s' /\ is_digit c = true)
      \/ (exists c s', s = 45 :: c :: s' /\ is_digit c = true)).
Proof.
  destruct s as [|c s]; [discriminate|]. cbn [number_token].
  destruct (N.eqb_spec c 45) as [->|Hc]; intro H;
    apply number_body_sound in H; destruct H as (-> & Hs & d & s' & Hd & Hdig).
  - split.
    + cbn. f_equal. rewrite Hs. now rewrite !List.app_nil_r.
    + right. exists d, s'. now rewrite Hd.
  - split.
    + cbn. rewrite Hs. now rewrite !List.app_nil_r.
    + left. eauto.
Qed.

(** *** Integers *)

Lemma uint_chars_digits (d : Decimal.uint) :
  Forall (fun c => is_digit c = true) (uint_chars d).
Proof. induction d; cbn; constructor; auto. Qed.

Lemma chars_uint_chars (d : Decimal.uint) : chars_uint (uint_chars d) = d.
Proof. induction d; cbn; congruence. Qed.

Lemma span_digits_all (ds : pystr) :
  Forall (fun c => is_digit c = true) ds -> span_digits ds = (ds, []).
Proof.
  induction 1 as [|c ds Hc _ IH]; [reflexivity|].
  cbn. rewrite Hc, IH. reflexivity.
Qed.

Lemma unorm_leading_zero (d x : Decimal.uint) :
  Decimal.unorm d = Decimal.D0 x -> x = Decimal.Nil.
Proof. induction d; cbn; intro H; try discriminate; auto. congruence. Qed.

(** The decimal digits of a positive number start with a digit other
    than [0]. *)
Lemma pos_chars_head (p : positive) :
  exists c ds, uint_chars (Pos.to_uint p) = c :: ds
               /\ is_digit c = true /\ (c =? 48) = false
               /\ Forall (fun c => is_digit c = true) ds.
Proof.
  pose proof (DecimalPos.Unsigned.to_of (Pos.to_uint p)) as Hn.
  rewrite DecimalPos.Unsigned.of_to in Hn. cbn in Hn.
  pose proof (DecimalPos.Unsigned.to_uint_nonzero p) as Hz.
  pose proof (uint_chars_digits (Pos.to_uint p)) as Hd.
  destruct (Pos.to_uint p) as [|d|d|d|d|d|d|d|d|d|d] eqn:E;
    try (cbn in *; inversion Hd; subst; eexists _, _; repeat split; eauto; fail).
  - discriminate Hn.
  - symmetry in Hn. apply unorm_leading_zero in Hn. subst d. now elim Hz.
Qed.

Lemma int_of_pos_chars (negative : bool) (p : positive) :
  int_of_chars negative (uint_chars (Pos.to_uint p))
  = if negative then Zneg p else Zpos p.
Proof.
  unfold int_of_chars. rewrite chars_uint_chars.
  change (N.of_uint (Pos.to_uint p)) with (Pos.of_uint (Pos.to_uint p)).
  rewrite DecimalPos.Unsigned.of_to. destruct negative; reflexivity.
Qed.

Lemma number_body_pos (negative : bool) (p : positive) :
  number_body negative (uint_chars (Pos.to_uint p))
  = Some (negative, uint_chars (Pos.to_uint p), [], [], []).
Proof.
  destruct (pos_chars_head p) as (c & ds & -> & Hc & H0 & Hds).
  cbn. rewrite Hc. unfold scan_int. rewrite H0, span_digits_all by assumption.
  reflexivity.
Qed.

(** [match_number] reads the text of an [int] back. *)
Lemma match_number_int (z : Z) (rest : pystr) :
  stops_number rest ->
  match_number (str_of_int z ++ rest) = Some (JInt z, rest).
Proof.
  intro Hr. unfold match_number. rewrite number_token_app by assumption.
  destruct z as [|p|p]; cbn [str_of_int].
  - reflexivity.
  - destruct (pos_chars_head p) as (c & ds & E & Hc & H0 & Hds).
    assert (Ht : number_token (uint_chars (Pos.to_uint p))
                 = number_body false (uint_chars (Pos.to_uint p))).
    { rewrite E. cbn. destruct (N.eqb_spec c 45) as [->|]; [discriminate|].
      reflexivity. }
    rewrite Ht, number_body_pos, (int_of_pos_chars false). reflexivity.
  - cbn [number_token]. cbn [N.eqb Pos.eqb].
    rewrite number_body_pos, (int_of_pos_chars true). reflexivity.
Qed.

(** [match_number] reads the literal of a finite float back. *)
Lemma match_number_float (r rest : pystr) :
  float_ok (FRepr r) = true ->
  stops_number rest ->
  match_number (r ++ rest) = Some (JFloat (FRepr r), rest).
Proof.
  intros Hok Hr. unfold match_number. rewrite number_token_app by assumption.
  cbn in Hok.
  destruct (number_token r) as [[[[[n ip] fr] ex] [|x xs]]|] eqn:E;
    try discriminate.
  apply number_token_sound in E. destruct E as (-> & _).
  destruct fr, ex; try discriminate; reflexivity.
Qed.

(** ** Reading back what [json.dumps] wrote: strings *)

Lemma hex_value_digit (d : N) : d < 16 -> hex_value (hex_digit d) = Some d.
Proof.
  intro H.
  assert (Hin : In d (map N.of_nat (seq 0 16))).
  { apply in_map_iff. exists (N.to_nat d). split; [apply N2Nat.id|].
    apply in_seq. lia. }
  cbn in Hin.
  repeat (destruct Hin as [<-|Hin]; [reflexivity|]). contradiction.
Qed.

Ltac euclid := zify; Z.to_euclidean_division_equations; lia.

(** The four digits of a [\uXXXX] escape decode to the number they
    spell. *)
Lemma decode_u_escape (n : N) :
  n < 65536 ->
  decode_hex4 (hex_digit (n / 4096)) (hex_digit ((n / 256) mod 16))
    (hex_digit ((n / 16) mod 16)) (hex_digit (n mod 16)) = Some n.
Proof.
  intro H. unfold decode_hex4.
  rewrite !hex_value_digit by euclid. f_equal. euclid.
Qed.

Lemma land_high_low (a x : N) : x < 1024 -> N.land (a * 1024) x = 0.
Proof.
  intro H. apply N.bits_inj. intro i. rewrite N.land_spec, N.bits_0.
  destruct (N.lt_ge_cases i 10) as [Hi|Hi].
  - change 1024 with (2 ^ 10). now rewrite N.mul_pow2_bits_low.
  - apply andb_false_iff. right.
    destruct (N.eq_dec x 0) as [->|Hx]; [apply N.bits_0|].
    apply N.bits_above_log2.
    apply N.lt_le_trans with 10; [|assumption].
    apply N.log2_lt_pow2; [lia|assumption].
Qed.

Lemma lor_high_low (a x : N) : x < 1024 -> N.lor (a * 1024) x = a * 1024 + x.
Proof.
  intro H. pose proof (land_high_low a x H) as H0.
  rewrite N.add_nocarry_lxor by assumption. symmetry. now apply N.lxor_lor.
Qed.

(** The surrogate pair that the encoder writes for a character above
    [0xFFFF]. *)
Lemma surrogates_of (c : N) :
  65536 <= c -> c < 1114112 ->
  let n := c - 65536 in
  let s1 := N.lor 55296 (N.land (N.shiftr n 10) 1023) in
  let s2 := N.lor 56320 (N.land n 1023) in
  s1 = 55296 + n / 1024 /\ s2 = 56320 + n mod 1024
  /\ is_high_surrogate s1 = true /\ is_low_surrogate s2 = true
  /\ join_surrogates s1 s2 = c.
Proof.
  intros Hlo Hhi n s1 s2.
  assert (Hn : n < 1048576) by (unfold n; lia).
  assert (Hq : n / 1024 < 1024) by euclid.
  assert (Hr : n mod 1024 < 1024) by euclid.
  assert (E1 : s1 = 55296 + n / 1024).
  { unfold s1. change 1023 with (N.ones 10).
    rewrite N.land_ones, N.shiftr_div_pow2. change (2 ^ 10) with 1024.
    rewrite N.mod_small by assumption.
    change 55296 with (54 * 1024). now apply lor_high_low. }
  assert (E2 : s2 = 56320 + n mod 1024).
  { unfold s2. change 1023 with (N.ones 10).
    rewrite N.land_ones. change (2 ^ 10) with 1024.
    change 56320 with (55 * 1024). now apply lor_high_low. }
  repeat split; try assumption.
  - rewrite E1. unfold is_high_surrogate. apply andb_true_iff.
    split; apply N.leb_le; euclid.
  - rewrite E2. unfold is_low_surrogate. apply andb_true_iff.
    split; apply N.leb_le; euclid.
  - unfold join_surrogates. rewrite E1, E2.
    replace (55296 + n / 1024 - 55296) with (n / 1024) by euclid.
    replace (56320 + n mod 1024 - 56320) with (n mod 1024) by euclid.
    rewrite N.shiftl_mul_pow2. change (2 ^ 10) with 1024.
    rewrite lor_high_low by assumption.
    assert (En : c = n + 65536) by (unfold n; lia).
    clearbody n. euclid.
Qed.

Lemma scanstring_u (a b c d : N) (tail : pystr) :
  scanstring (92 :: 117 :: a :: b :: c :: d :: tail)
  = match decode_hex4 a b c d with
    | None => None
    | Some uni =>
        if is_high_surrogate uni then
          match tail with
          | bs :: u :: x1 :: x2 :: x3 :: x4 :: s4 =>
              if (bs =? 92) && (u =? 117) then
                match decode_hex4 x1 x2 x3 x4 with
                | None => None
                | Some uni2 =>
                    if is_low_surrogate uni2 then
                      push (join_surrogates uni uni2) (scanstring s4)
                    else push uni (scanstring tail)
                end
              else push uni (scanstring tail)
          | _ => push uni (scanstring tail)
          end
        else push uni (scanstring tail)
    end.
Proof. reflexivity. Qed.

Lemma scanstring_plain (c : N) (tail : pystr) :
  32 <= c -> c <> 34 -> c <> 92 ->
  scanstring (c :: tail) = push c (scanstring tail).
Proof.
  intros H32 H34 H92. cbn [scanstring].
  destruct (N.eqb_spec c 34); [contradiction|].
  destruct (N.eqb_spec c 92); [contradiction|].
  destruct (N.leb_spec c 31); [lia|reflexivity].
Qed.

Lemma scanstring_u_escape (c : N) (tail : pystr) :
  c < 65536 ->
  (is_high_surrogate c = true -> no_low_escape tail) ->
  scanstring (u_escape c ++ tail) = push c (scanstring tail).
Proof.
  intros Hc Hnl. unfold u_escape. cbn [app].
  rewrite scanstring_u, decode_u_escape by assumption.
  destruct (is_high_surrogate c); [|reflexivity].
  destruct tail as [|bs [|u [|x1 [|x2 [|x3 [|x4 s4]]]]]]; try reflexivity.
  destruct (N.eqb_spec bs 92) as [->|]; [|reflexivity].
  destruct (N.eqb_spec u 117) as [->|]; [|reflexivity].
  cbn [andb].
  destruct (Hnl eq_refl x1 x2 x3 x4 s4 eq_refl) as (u2 & -> & ->).
  reflexivity.
Qed.

(** The scanner reads the escape of one character back, unless the
    character is a high surrogate that the text after it completes. *)
Lemma scanstring_escape_char (c : N) (tail : pystr) :
  c < 1114112 ->
  (is_high_surrogate c = true -> no_low_escape tail) ->
  scanstring (escape_char c ++ tail) = push c (scanstring tail).
Proof.
  intros Hc Hnl. unfold escape_char.
  repeat match goal with
    | |- context [c =? ?k] => destruct (N.eqb_spec c k); [subst c; reflexivity|]
    end.
  destruct (N.leb_spec 32 c); cbn [andb].
  - destruct (N.leb_spec c 126).
    + now apply scanstring_plain.
    + destruct (N.ltb_spec c 65536).
      * now apply scanstring_u_escape.
      * cbv zeta.
        destruct (surrogates_of c) as (E1 & E2 & Hh & Hl & Hj);
          [assumption..|]. cbv zeta in *.
        set (s1 := N.lor 55296 _) in *. set (s2 := N.lor 56320 _) in *.
        rewrite <- app_assoc. unfold u_escape at 1. cbn [app].
        rewrite scanstring_u, decode_u_escape by (rewrite E1; euclid).
        rewrite Hh. unfold u_escape. cbn [app]. cbn [N.eqb Pos.eqb andb].
        rewrite decode_u_escape by (rewrite E2; euclid).
        rewrite Hl, Hj. reflexivity.
  - destruct (N.ltb_spec c 65536); [|lia].
    now apply scanstring_u_escape.
Qed.

Lemma cons_eq_inv {A : Type} (a b : A) (s t : list A) :
  a :: s = b :: t -> a = b /\ s = t.
Proof. intros [= -> ->]. now split. Qed.

Lemma escape_digits_inv (a1 a2 a3 a4 a5 a6 b1 b2 b3 b4 b5 b6 : N)
  (s t : pystr) :
  a1 :: a2 :: a3 :: a4 :: a5 :: a6 :: s = b1 :: b2 :: b3 :: b4 :: b5 :: b6 :: t ->
  a3 = b3 /\ a4 = b4 /\ a5 = b5 /\ a6 = b6.
Proof. intros [= _ _ -> -> -> -> _]. now repeat split. Qed.

(** The text the encoder writes for a string never starts with the
    escape of a low surrogate, unless the string does. *)
Lemma encoded_no_low_escape (s rest : pystr) :
  str_ok s = true ->
  match s with c :: _ => is_low_surrogate c = false | [] => True end ->
  no_low_escape (flat_map escape_char s ++ 34 :: rest).
Proof.
  intros Hok Hhead x1 x2 x3 x4 s4 E.
  destruct s as [|c s]; [discriminate E|].
  cbn [flat_map] in E. rewrite <- app_assoc in E.
  cbn [str_ok] in Hok. apply andb_true_iff in Hok. destruct Hok as [Hok _].
  apply andb_true_iff in Hok. destruct Hok as [Hc _].
  apply N.ltb_lt in Hc.
  revert E. unfold escape_char.
  repeat match goal with
    | |- context [c =? ?k] => destruct (N.eqb_spec c k); [discriminate|]
    end.
  assert (Hu : c < 65536 ->
               u_escape c ++ flat_map escape_char s ++ 34 :: rest
               = 92 :: 117 :: x1 :: x2 :: x3 :: x4 :: s4 ->
               exists u, decode_hex4 x1 x2 x3 x4 = Some u
                         /\ is_low_surrogate u = false).
  { intros Hlt E. unfold u_escape in E. cbn [app] in E.
    apply escape_digits_inv in E. destruct E as (<- & <- & <- & <-).
    exists c. split; [|assumption].
    now apply decode_u_escape. }
  destruct (N.leb_spec 32 c); cbn [andb].
  - destruct (N.leb_spec c 126).
    + cbn [app]. intro E. apply cons_eq_inv in E. destruct E as [-> _]. lia.
    + destruct (N.ltb_spec c 65536); [now apply Hu|].
      cbv zeta. intro E.
      destruct (surrogates_of c) as (E1 & E2 & Hh & Hl & Hj);
        [assumption..|]. cbv zeta in *.
      set (s1 := N.lor 55296 _) in *.
      rewrite <- app_assoc in E. unfold u_escape at 1 in E. cbn [app] in E.
      apply escape_digits_inv in E. destruct E as (<- & <- & <- & <-).
      exists s1. split.
      * apply decode_u_escape. rewrite E1. euclid.
      * unfold is_low_surrogate, is_high_surrogate in *.
        apply andb_true_iff in Hh. destruct Hh as [_ Hh].
        apply N.leb_le in Hh. apply andb_false_iff. left.
        apply N.leb_gt. lia.
  - destruct (N.ltb_spec c 65536); [now apply Hu|lia].
Qed.

(** [scanstring] reads the text of a string back. *)
Lemma scanstring_encoded (s rest : pystr) :
  str_ok s = true ->
  scanstring (flat_map escape_char s ++ 34 :: rest) = Some (s, rest).
Proof.
  induction s as [|c s IH]; intro Hok; [reflexivity|].
  cbn [flat_map]. rewrite <- app_assoc.
  cbn [str_ok] in Hok. apply andb_true_iff in Hok. destruct Hok as [Hok Hs].
  apply andb_true_iff in Hok. destruct Hok as [Hc Hpair].
  apply N.ltb_lt in Hc.
  rewrite scanstring_escape_char.
  - rewrite IH by assumption. reflexivity.
  - assumption.
  - intro Hh. rewrite Hh in Hpair. apply encoded_no_low_escape; [assumption|].
    destruct s as [|c' s]; [exact I|].
    cbn in Hpair. now apply negb_true_iff in Hpair.
Qed.

Lemma scan_once_string (fuel : nat) (s rest : pystr) :
  str_ok s = true ->
  scan_once (S fuel) (encode_basestring_ascii s ++ rest) = Some (JStr s, rest).
Proof.
  intro Hok. unfold encode_basestring_ascii. cbn [app scan_once N.eqb Pos.eqb].
  rewrite <- app_assoc. cbn [app]. now rewrite scanstring_encoded.
Qed.

(** ** Reading back what [json.dumps] wrote: dictionaries *)

Lemma str_eqb_eq (a b : pystr) : str_eqb a b = true <-> a = b.
Proof.
  revert b. induction a as [|x a IH]; intros [|y b]; cbn; try easy.
  rewrite andb_true_iff, N.eqb_eq, IH. split.
  - now intros [-> ->].
  - now intros [= -> ->].
Qed.

Lemma str_eqb_sym (a b : pystr) : str_eqb a b = str_eqb b a.
Proof.
  destruct (str_eqb a b) eqn:E.
  - apply str_eqb_eq in E. subst. symmetry. now apply str_eqb_eq.
  - destruct (str_eqb b a) eqn:E'; [|reflexivity].
    apply str_eqb_eq in E'. subst.
    assert (str_eqb a a = true) by now apply str_eqb_eq. congruence.
Qed.

Lemma existsb_false_in {A : Type} (f : A -> bool) (l : list A) (x : A) :
  existsb f l = false -> In x l -> f x = false.
Proof.
  induction l as [|y l IH]; [contradiction|]. cbn. intro H.
  apply orb_false_iff in H. destruct H as [Hy Hl].
  intros [<-|Hin]; [assumption|now apply IH].
Qed.

Lemma set_item_fresh (k : pystr) (v : json) (d : list (pystr * json)) :
  existsb (fun kv => str_eqb (fst kv) k) d = false ->
  set_item k v d = d ++ [(k, v)].
Proof.
  induction d as [|[k' v'] d IH]; [reflexivity|]. cbn.
  intro H. apply orb_false_iff in H. destruct H as [-> H].
  now rewrite IH.
Qed.

Lemma fold_set_item (ps acc : list (pystr * json)) :
  keys_unique ps = true ->
  (forall kv, In kv ps ->
     existsb (fun a => str_eqb (fst a) (fst kv)) acc = false) ->
  fold_left (fun d kv => set_item (fst kv) (snd kv) d) ps acc = acc ++ ps.
Proof.
  revert acc. induction ps as [|[k v] ps IH]; intros acc Hu Hacc.
  - cbn. now rewrite List.app_nil_r.
  - cbn [fold_left fst snd].
    rewrite set_item_fresh by (apply (Hacc (k, v)); now left).
    cbn [keys_unique] in Hu. apply andb_true_iff in Hu.
    destruct Hu as [Hk Hu]. apply negb_true_iff in Hk.
    rewrite IH; [now rewrite <- app_assoc|assumption|].
    intros kv Hin. rewrite existsb_app. apply orb_false_iff. split.
    + apply Hacc. now right.
    + cbn. rewrite orb_false_r, str_eqb_sym.
      exact (existsb_false_in _ _ kv Hk Hin).
Qed.

(** A list of pairs with pairwise different keys is the dict it
    builds. *)
Lemma dict_of_pairs_unique (ps : list (pystr * json)) :
  keys_unique ps = true -> dict_of_pairs ps = ps.
Proof.
  intro H. unfold dict_of_pairs. now rewrite fold_set_item.
Qed.

(** ** Reading back what [json.dumps] wrote: values *)

Lemma skip_ws_spaces (k : nat) (t : pystr) :
  skip_ws (repeat 32 k ++ t) = skip_ws t.
Proof. induction k as [|k IH]; [reflexivity|exact IH]. Qed.

Lemma skip_ws_indent (level : nat) (t : pystr) :
  skip_ws (newline_indent level ++ t) = skip_ws t.
Proof. unfold newline_indent. cbn [app skip_ws is_ws]. apply skip_ws_spaces. Qed.

Lemma skip_ws_value (s : pystr) : starts_value s -> skip_ws s = s.
Proof.
  destruct s as [|c s]; [contradiction|]. intros (H & _). cbn. now rewrite H.
Qed.

Lemma starts_value_app (s rest : pystr) :
  starts_value s -> starts_value (s ++ rest).
Proof. destruct s; [contradiction|exact (fun H => H)]. Qed.

Lemma number_head_app (s rest : pystr) :
  number_head s -> number_head (s ++ rest).
Proof.
  intros [(c & t & -> & H)|(c & t & -> & H)]; [left|right];
    now exists c, (t ++ rest).
Qed.

Lemma number_head_value (s : pystr) : number_head s -> starts_value s.
Proof.
  intros [(c & t & -> & H)|(c & t & -> & H)]; cbn.
  - unfold is_digit in H. apply andb_true_iff in H. destruct H as [H1 H2].
    apply N.leb_le in H1, H2. unfold is_ws.
    repeat split; try lia.
    repeat (apply orb_false_iff; split); apply N.eqb_neq; lia.
  - repeat split; (reflexivity || lia).
Qed.

Lemma str_of_int_head (z : Z) : number_head (str_of_int z).
Proof.
  destruct z as [|p|p]; cbn [str_of_int].
  - left. now exists 48, [].
  - destruct (pos_chars_head p) as (c & ds & -> & Hc & _). left.
    now exists c, ds.
  - destruct (pos_chars_head p) as (c & ds & -> & Hc & _). right.
    now exists c, ds.
Qed.

Lemma float_literal_head (r : pystr) :
  float_ok (FRepr r) = true -> number_head r.
Proof.
  cbn. destruct (number_token r) as [[[[[n ip] fr] ex] rest]|] eqn:E;
    [|discriminate].
  destruct rest; [|discriminate]. intros _.
  now apply number_token_sound in E.
Qed.

(** Where [scan_once] falls through to [match_number]. *)
Lemma scan_once_number (fuel : nat) (s : pystr) :
  number_head s -> scan_once (S fuel) s = match_number s.
Proof.
  intros [(c & t & -> & H)|(c & t & -> & H)];
    unfold is_digit in H; apply andb_true_iff in H; destruct H as [H1 H2];
    apply N.leb_le in H1, H2.
  - cbn [scan_once].
    repeat match goal with
      | |- context [lit ?x] =>
          let y := eval vm_compute in (lit x) in change (lit x) with y
      end.
    cbn [strip_prefix].
    repeat match goal with
      | |- context [?k =? c] => destruct (N.eqb_spec k c); [lia|]
      | |- context [c =? ?k] => destruct (N.eqb_spec c k); [lia|]
      end.
    reflexivity.
  - cbn [scan_once].
    repeat match goal with
      | |- context [lit ?x] =>
          let y := eval vm_compute in (lit x) in change (lit x) with y
      end.
    cbn [strip_prefix].
    repeat match goal with
      | |- context [N.pos ?a =? N.pos ?b] =>
          let y := eval vm_compute in (N.pos a =? N.pos b) in
          change (N.pos a =? N.pos b) with y
      end.
    cbv iota.
    destruct (N.eqb_spec 73 c); [lia|reflexivity].
Qed.

Lemma iterencode_arr (level : nat) (x : json) (xs : list json) :
  iterencode level (JArr (x :: xs))
  = 91 :: newline_indent (S level) ++ iterencode (S level) x
    ++ more_items (newline_indent (S level)) (iterencode (S level)) xs
    ++ newline_indent level ++ [93].
Proof. reflexivity. Qed.

Lemma iterencode_obj (level : nat) (k : pystr) (x : json)
  (ms : list (pystr * json)) :
  iterencode level (JObj ((k, x) :: ms))
  = 123 :: newline_indent (S level)
    ++ encode_basestring_ascii k ++ [58; 32] ++ iterencode (S level) x
    ++ more_members (newline_indent (S level)) (iterencode (S level)) ms
    ++ newline_indent level ++ [125].
Proof. reflexivity. Qed.

Lemma more_items_cons (sep : pystr) (enc : json -> pystr) (y : json)
  (l : list json) :
  more_items sep enc (y :: l) = 44 :: sep ++ enc y ++ more_items sep enc l.
Proof. reflexivity. Qed.

Lemma more_members_cons (sep : pystr) (enc : json -> pystr) (k : pystr)
  (y : json) (l : list (pystr * json)) :
  more_members sep enc ((k, y) :: l)
  = 44 :: sep ++ encode_basestring_ascii k ++ [58; 32] ++ enc y
    ++ more_members sep enc l.
Proof. reflexivity. Qed.

Lemma encoded_string_value (s : pystr) :
  starts_value (encode_basestring_ascii s).
Proof. cbn. repeat split; (reflexivity || lia). Qed.

(** The text of a well-formed value starts like a value. *)
Lemma iterencode_head (level : nat) (v : json) :
  json_ok v = true -> starts_value (iterencode level v).
Proof.
  destruct v as [|[]|z|[r| | |]|s|[|x xs]|[|[k x] ms]]; intro Hok;
    try (cbn; repeat split; (reflexivity || lia)).
  - apply number_head_value, str_of_int_head.
  - now apply number_head_value, float_literal_head.
Qed.

Lemma parse_items_step (f : nat) (s s1 : pystr) (v : json) :
  scan_once f s = Some (v, s1) ->
  parse_items (S f) s
  = match skip_ws s1 with
    | [] => None
    | c :: s2 =>
        if c =? 93 then Some ([v], s2)
        else if c =? 44 then
          match parse_items f (skip_ws s2) with
          | Some (vs, r) => Some (v :: vs, r)
          | None => None
          end
        else None
    end.
Proof. intro H. cbn [parse_items]. now rewrite H. Qed.

Lemma parse_members_step (f : nat) (s0 s2 s3 key : pystr) (v : json) :
  scanstring s0 = Some (key, 58 :: 32 :: s2) ->
  starts_value s2 ->
  scan_once f s2 = Some (v, s3) ->
  parse_members (S f) (34 :: s0)
  = match skip_ws s3 with
    | [] => None
    | c :: s4 =>
        if c =? 125 then Some ([(key, v)], s4)
        else if c =? 44 then
          match parse_members f (skip_ws s4) with
          | Some (kvs, r) => Some ((key, v) :: kvs, r)
          | None => None
          end
        else None
    end.
Proof.
  intros Hk Hs Hv. cbn [parse_members]. change (34 =? 34) with true.
  cbv iota. rewrite Hk.
  change (skip_ws (58 :: 32 :: s2)) with (58 :: 32 :: s2).
  change (58 =? 58) with true. cbv iota.
  change (skip_ws (32 :: s2)) with (skip_ws s2).
  rewrite (skip_ws_value s2 Hs), Hv. reflexivity.
Qed.

Lemma scan_once_array (f level : nat) (s r : pystr) (items : list json) :
  starts_value s ->
  parse_items f s = Some (items, r) ->
  scan_once (S f) (91 :: newline_indent level ++ s) = Some (JArr items, r).
Proof.
  intros Hs Hp. cbn [scan_once].
  change (91 =? 34) with false. change (91 =? 123) with false.
  change (91 =? 91) with true. cbv iota.
  rewrite skip_ws_indent, (skip_ws_value s Hs).
  destruct s as [|c s]; [contradiction|]. destruct Hs as (_ & H93 & _).
  destruct (N.eqb_spec c 93); [contradiction|]. now rewrite Hp.
Qed.

Lemma scan_once_object (f level : nat) (s r : pystr)
  (pairs : list (pystr * json)) :
  starts_value s ->
  parse_members f s = Some (pairs, r) ->
  scan_once (S f) (123 :: newline_indent level ++ s)
  = Some (JObj (dict_of_pairs pairs), r).
Proof.
  intros Hs Hp. cbn [scan_once].
  change (123 =? 34) with false. change (123 =? 123) with true. cbv iota.
  rewrite skip_ws_indent, (skip_ws_value s Hs).
  destruct s as [|c s]; [contradiction|]. destruct Hs as (_ & _ & H125 & _).
  destruct (N.eqb_spec c 125); [contradiction|]. now rewrite Hp.
Qed.

Lemma delimited_close (level : nat) (c : N) (rest : pystr) :
  delimited (newline_indent level ++ c :: rest).
Proof. now right. Qed.

Lemma skip_ws_close (level : nat) (c : N) (rest : pystr) :
  is_ws c = false ->
  skip_ws (newline_indent level ++ c :: rest) = c :: rest.
Proof. intro H. rewrite skip_ws_indent. cbn. now rewrite H. Qed.

(** The loop of [JSONArray] reads the items of a list back. *)
Lemma parse_items_encoded (level : nat) (rest : pystr) (xs : list json) :
  Forall (fun v => json_ok v = true -> reads_back v) xs ->
  forallb json_ok xs = true ->
  forall (x : json) (fuel : nat),
    reads_back x -> json_ok x = true ->
    (S (weight x + fold_right (fun y n => S (weight y + n)) O xs) <= fuel)%nat ->
    parse_items fuel
      (iterencode (S level) x
       ++ more_items (newline_indent (S level)) (iterencode (S level)) xs
       ++ newline_indent level ++ 93 :: rest)
    = Some (x :: xs, rest).
Proof.
  induction 1 as [|y ys Hy Hys IH]; intros Hoks x fuel Hx Hok Hfuel;
    (destruct fuel as [|f]; [lia|]).
  - cbn [more_items app]. cbn [fold_right] in Hfuel.
    rewrite (parse_items_step f _ _ x
               (Hx f (S level) _ (delimited_close level 93 rest) ltac:(lia))).
    now rewrite skip_ws_close.
  - cbn [forallb] in Hoks. apply andb_true_iff in Hoks.
    destruct Hoks as [Hoky Hoks]. cbn [fold_right] in Hfuel.
    rewrite more_items_cons. cbn [app]. rewrite <- !app_assoc.
    erewrite parse_items_step by (apply Hx; [now left|lia]).
    change (skip_ws (44 :: ?t)) with (44 :: t). cbv iota.
    change (44 =? 93) with false. change (44 =? 44) with true. cbv iota.
    rewrite skip_ws_indent, skip_ws_value
      by now apply starts_value_app, iterencode_head.
    rewrite IH; auto. lia.
Qed.

(** The loop of [JSONObject] reads the members of a dict back. *)
Lemma parse_members_encoded (level : nat) (rest : pystr)
  (ms : list (pystr * json)) :
  Forall (fun kv => json_ok (snd kv) = true -> reads_back (snd kv)) ms ->
  forallb (fun kv => str_ok (fst kv) && json_ok (snd kv)) ms = true ->
  forall (k : pystr) (x : json) (fuel : nat),
    reads_back x -> str_ok k = true -> json_ok x = true ->
    (S (weight x + fold_right (fun kv n => S (weight (snd kv) + n)) O ms)
     <= fuel)%nat ->
    parse_members fuel
      (encode_basestring_ascii k ++ [58; 32] ++ iterencode (S level) x
       ++ more_members (newline_indent (S level)) (iterencode (S level)) ms
       ++ newline_indent level ++ 125 :: rest)
    = Some ((k, x) :: ms, rest).
Proof.
  induction 1 as [|[k' y] ys Hy Hys IH]; intros Hoks k x fuel Hx Hk Hok Hfuel;
    (destruct fuel as [|f]; [lia|]); unfold encode_basestring_ascii at 1;
    cbn [app]; rewrite <- !app_assoc; cbn [app].
  - cbn [more_members app]. cbn [fold_right] in Hfuel.
    rewrite (parse_members_step f _ _ _ k x (scanstring_encoded k _ Hk)
               (starts_value_app _ _ (iterencode_head (S level) x Hok))
               (Hx f (S level) _ (delimited_close level 125 rest) ltac:(lia))).
    now rewrite skip_ws_close.
  - cbn [forallb fst snd] in Hoks. apply andb_true_iff in Hoks.
    destruct Hoks as [Hoky Hoks]. apply andb_true_iff in Hoky.
    destruct Hoky as [Hk' Hoky]. cbn [fold_right snd] in Hfuel.
    rewrite more_members_cons.
    repeat first [rewrite <- app_assoc | progress cbn [app]].
    erewrite parse_members_step;
      [|now apply scanstring_encoded
       |now apply starts_value_app, iterencode_head
       |apply Hx; [now left|lia]].
    change (skip_ws (44 :: ?t)) with (44 :: t). cbv iota.
    change (44 =? 125) with false. change (44 =? 44) with true. cbv iota.
    rewrite skip_ws_indent, skip_ws_value
      by apply starts_value_app, encoded_string_value.
    cbn [app] in IH.
    rewrite IH; auto. lia.
Qed.

(** [scan_once] reads the text of every well-formed value back. *)
Lemma scan_once_encoded (v : json) : json_ok v = true -> reads_back v.
Proof.
  induction v as [|b|z|f|s|items IH|members IH] using json_ind;
    intros Hok fuel level rest Hr Hf;
    (destruct fuel as [|n]; [cbn in Hf; lia|]).
  - reflexivity.
  - destruct b; reflexivity.
  - cbn [iterencode].
    rewrite scan_once_number by apply number_head_app, str_of_int_head.
    now apply match_number_int, delimited_stops_number.
  - destruct f as [r| | |]; try reflexivity.
    cbn [iterencode floatstr].
    rewrite scan_once_number by now apply number_head_app, float_literal_head.
    apply match_number_float; [exact Hok|now apply delimited_stops_number].
  - cbn [iterencode]. now apply scan_once_string.
  - destruct items as [|x xs]; [reflexivity|].
    rewrite iterencode_arr. cbn [json_ok forallb] in Hok.
    apply andb_true_iff in Hok. destruct Hok as [Hx Hxs].
    inversion IH as [|? ? IHx IHxs]; subst.
    cbn [weight fold_right] in Hf.
    repeat first [rewrite <- app_assoc | progress cbn [app]].
    apply scan_once_array.
    + now apply starts_value_app, iterencode_head.
    + apply parse_items_encoded; auto. lia.
  - destruct members as [|[k x] ms]; [reflexivity|].
    rewrite iterencode_obj.
    assert (Hu : keys_unique ((k, x) :: ms) = true).
    { cbn [json_ok] in Hok. now apply andb_true_iff in Hok. }
    cbn [json_ok forallb fst snd] in Hok.
    apply andb_true_iff in Hok. destruct Hok as [_ Hok].
    apply andb_true_iff in Hok. destruct Hok as [Hkx Hms].
    apply andb_true_iff in Hkx. destruct Hkx as [Hk Hx].
    inversion IH as [|? ? IHx IHxs]; subst. cbn [snd] in IHx.
    cbn [weight fold_right snd] in Hf.
    repeat first [rewrite <- app_assoc | progress cbn [app]].
    rewrite <- (dict_of_pairs_unique _ Hu) at 1.
    apply scan_once_object.
    + apply starts_value_app, encoded_string_value.
    + apply (parse_members_encoded level rest ms); auto. lia.
Qed.

Lemma newline_indent_length (level : nat) :
  List.length (newline_indent level) = S (2 * level).
Proof. unfold newline_indent. cbn [List.length]. now rewrite repeat_length. Qed.

(** The text of a value is long enough to serve as fuel for reading it
    back. *)
Lemma weight_le_length (v : json) (level : nat) :
  (weight v <= S (List.length (iterencode level v)))%nat.
Proof.
  revert level.
  induction v as [|b|z|f|s|items IH|members IH] using json_ind;
    intro level; try (cbn [weight]; lia).
  - destruct items as [|x xs]; [cbn; lia|].
    rewrite iterencode_arr. inversion IH as [|? ? IHx IHxs]; subst.
    cbn [weight fold_right List.length].
    rewrite !length_app, !newline_indent_length. cbn [List.length].
    specialize (IHx (S level)).
    assert (Hm : (fold_right (fun y n => S (weight y + n)) O xs
                  <= List.length (more_items (newline_indent (S level))
                                    (iterencode (S level)) xs))%nat).
    { clear -IHxs. induction IHxs as [|y ys Hy _ IHys]; [cbn; lia|].
      rewrite more_items_cons. cbn [fold_right List.length].
      rewrite !length_app, newline_indent_length.
      specialize (Hy (S level)). lia. }
    lia.
  - destruct members as [|[k x] ms]; [cbn; lia|].
    rewrite iterencode_obj. inversion IH as [|? ? IHx IHxs]; subst.
    cbn [snd] in IHx.
    cbn [weight fold_right List.length snd].
    rewrite !length_app, !newline_indent_length. cbn [List.length].
    specialize (IHx (S level)).
    assert (Hm : (fold_right (fun kv n => S (weight (snd kv) + n)) O ms
                  <= List.length (more_members (newline_indent (S level))
                                    (iterencode (S level)) ms))%nat).
    { clear -IHxs. induction IHxs as [|[k' y] ys Hy _ IHys]; [cbn; lia|].
      rewrite more_members_cons. cbn [fold_right List.length snd].
      rewrite !length_app, newline_indent_length.
      specialize (Hy (S level)). cbn [snd] in Hy. lia. }
    lia.
Qed.

(** [json.loads(json.dumps(v, indent=2)) == v] for every well-formed
    value. *)
Lemma loads_dumps (v : json) : json_ok v = true -> loads (dumps v) = Some v.
Proof.
  intro Hok. unfold loads, dumps.
  pose proof (iterencode_head O v Hok) as Hh.
  pose proof (scan_once_encoded v Hok (S (List.length (iterencode O v))) O []
                I (weight_le_length v O)) as Hs.
  rewrite List.app_nil_r in Hs.
  rewrite (skip_ws_value _ Hh), Hs.
  destruct (iterencode O v) as [|c t]; [contradiction|].
  destruct Hh as (_ & _ & _ & Hbom).
  destruct (N.eqb_spec c 65279); [contradiction|reflexivity].
Qed.

Lemma lookup_well_formed (key : pystr) (members : list (pystr * json))
  (v : json) :
  json_ok (JObj members) = true -> lookup key members = Some v ->
  json_ok v = true.
Proof.
  cbn [json_ok]. intro H. apply andb_true_iff in H. destruct H as [_ H].
  induction members as [|[k x] ms IH]; [discriminate|].
  cbn [forallb fst snd] in H. apply andb_true_iff in H. destruct H as [Hkx Hms].
  apply andb_true_iff in Hkx. destruct Hkx as [_ Hx].
  cbn [lookup]. destruct (str_eqb k key); [now intros [= <-]|now apply IH].
Qed.

(** C8: for each of the eight tools, when the body of the response is a
    well-formed JSON object whose envelope field holds a well-formed
    value that is non-empty (truthy, as the tools test it), the tool
    returns a string, and [json.loads] of that string is exactly the
    value of the envelope field. *)
Theorem result_decodes_to_envelope_field (c : call) (w : world)
  (members : list (pystr * json)) (v : json) :
  serve w (request_for w (target c)) = Decoded (JObj members) ->
  json_ok (JObj members) = true ->
  lookup (envelope c) members = Some v ->
  truthy v = true ->
  exists s, result (invoke c) w = Returned s /\ loads s = Some v.
Proof.
  intros Hserve Hok Hfield Hv. exists (dumps v). split.
  - rewrite result_invoke, Hserve. unfold respond, payload, get.
    rewrite Hfield, Hv.
    destruct members as [|m ms]; [discriminate Hfield|].
    cbn [truthy negb]. now rewrite andb_false_r.
  - apply loads_dumps. exact (lookup_well_formed _ _ _ Hok Hfield).
Qed.

Lemma result_decodes_witness :
  exists s,
    result (invoke (IncomeStatements (lit "AAPL") (lit "2024-01-01")
                      (lit "annual") 2)) income_world = Returned s
    /\ loads s = Some (JArr [JObj [(lit "revenue", JInt 100)];
                             JObj [(lit "revenue", JInt 90)]]).
Proof.
  apply (result_decodes_to_envelope_field
           (IncomeStatements (lit "AAPL") (lit "2024-01-01") (lit "annual") 2)
           income_world
           [(lit "income_statements",
             JArr [JObj [(lit "revenue", JInt 100)];
                   JObj [(lit "revenue", JInt 90)]])]).
  - reflexivity.
  - vm_compute. reflexivity.
  - vm_compute. reflexivity.
  - reflexivity.
Defined.

(** * Boundaries of the pass-through *)

Lemma failure_gives_not_found_witness :
  result (invoke (CompanyNews (lit "AAPL") (lit "2024-01-01"))) failing_world
  = Returned (lit "Unable to fetch news or no news found.").
Proof.
  exact (failure_gives_not_found
           (CompanyNews (lit "AAPL") (lit "2024-01-01")) failing_world
           (lit "Server error '500 Internal Server Error'") eq_refl eq_refl).
Defined.

(** X2: the seven tools that test the extracted field answer a field
    that holds a falsy value ([None], [False], [0], an empty string,
    list or dict) with their fixed message. *)
Lemma falsy_field_gives_not_found (c : call) (w : world)
    (members : list (pystr * json)) (v : json) :
  checks_field c = true ->
  serve w (request_for w (target c)) = Decoded (JObj members) ->
  lookup (envelope c) members = Some v ->
  truthy v = false ->
  result (invoke c) w = Returned (not_found c).
Proof.
  intros Hc Hs Hl Hv. rewrite result_invoke, Hs. unfold respond, payload, get.
  destruct members as [|m members]; [reflexivity|].
  cbn [truthy negb]. rewrite Hl, Hc, Hv. reflexivity.
Qed.

Lemma falsy_field_witness :
  result (invoke (HistoricalStockPrices (lit "AAPL") (lit "2023-01-01")
                    (lit "2023-01-31") (lit "2024-01-01") (lit "day") 1))
    (constant_world (Decoded (JObj [(lit "prices", JInt 0)])))
  = Returned (lit "Unable to fetch prices or no prices found.").
Proof.
  exact (falsy_field_gives_not_found
           (HistoricalStockPrices (lit "AAPL") (lit "2023-01-01")
              (lit "2023-01-31") (lit "2024-01-01") (lit "day") 1)
           (constant_world (Decoded (JObj [(lit "prices", JInt 0)])))
           [(lit "prices", JInt 0)] (JInt 0) eq_refl eq_refl eq_refl eq_refl).
Defined.

(** X3: the seven tools that test the extracted field answer a body
    without the field with their fixed message: the default of
    [data.get] is the empty list. *)
Lemma absent_field_gives_not_found (c : call) (w : world)
    (members : list (pystr * json)) :
  checks_field c = true ->
  serve w (request_for w (target c)) = Decoded (JObj members) ->
  lookup (envelope c) members = None ->
  result (invoke c) w = Returned (not_found c).
Proof.
  intros Hc Hs Hl. rewrite result_invoke, Hs. unfold respond, payload, get.
  destruct members as [|m members]; [reflexivity|].
  cbn [truthy negb]. rewrite Hl, Hc. reflexivity.
Qed.

Lemma absent_field_witness :
  result (invoke (BalanceSheets (lit "AAPL") (lit "2024-01-01")
                    (lit "annual") 2))
    (constant_world (Decoded (JObj [(lit "error", JStr (lit "Invalid ticker"))])))
  = Returned (lit "Unable to fetch balance sheets or no balance sheets found.").
Proof.
  exact (absent_field_gives_not_found
           (BalanceSheets (lit "AAPL") (lit "2024-01-01") (lit "annual") 2)
           (constant_world
              (Decoded (JObj [(lit "error", JStr (lit "Invalid ticker"))])))
           [(lit "error", JStr (lit "Invalid ticker"))]
           eq_refl eq_refl eq_refl).
Defined.

(** * Further properties of the tools *)

(** ** What the first test of a tool catches *)

(** X4: each of the eight tools, the ticker listing included, answers a
    body that decodes to a falsy value ([None], [{}], [[]], [0], an
    empty string, [False]) with its fixed message. *)
Lemma falsy_body_gives_not_found (c : call) (w : world) (body : json) :
  serve w (request_for w (target c)) = Decoded body ->
  truthy body = false ->
  result (invoke c) w = Returned (not_found c).
Proof.
  intros Hs Hb. rewrite result_invoke, Hs. unfold respond, payload.
  now rewrite Hb.
Qed.

Lemma falsy_body_witness :
  result (invoke (AvailableCryptoTickers (lit "2024-01-01")))
    (constant_world (Decoded (JObj [])))
  = Returned (lit "Unable to fetch available crypto tickers or no available crypto tickers found.").
Proof.
  exact (falsy_body_gives_not_found (AvailableCryptoTickers (lit "2024-01-01"))
           (constant_world (Decoded (JObj []))) (JObj []) eq_refl eq_refl).
Defined.

(** ** Exceptions *)

(** X5: when the [int] argument of a call can be formatted and the
    response decodes to a truthy value that is not a dict (a list that
    is not empty, a string that is not empty, a number other than zero,
    [True]), the tool raises the [AttributeError] of [data.get] and
    returns no string. *)
Theorem truthy_non_dict_body_raises (c : call) (w : world) (body : json) :
  arguments_format c ->
  serve w (request_for w (target c)) = Decoded body ->
  truthy body = true ->
  (forall members, body <> JObj members) ->
  result (invoke c) w = Raised (AttributeError (lit "get")).
Proof.
  intros _ Hs Hb Hd. rewrite result_invoke, Hs. unfold respond, payload, get.
  rewrite Hb. cbn [negb].
  destruct body as [|b|z|f|s|items|members]; try reflexivity.
  now elim (Hd members).
Qed.

Lemma truthy_non_dict_body_witness :
  result (invoke (BalanceSheets (lit "AAPL") (lit "2024-01-01")
                    (lit "annual") 2)) array_world
  = Raised (AttributeError (lit "get")).
Proof.
  apply (truthy_non_dict_body_raises
           (BalanceSheets (lit "AAPL") (lit "2024-01-01") (lit "annual") 2)
           array_world (JArr [JInt 1])).
  - vm_compute. discriminate.
  - reflexivity.
  - reflexivity.
  - intros members H. discriminate H.
Defined.

(** ** The request *)

(** X6: when the [int] argument of a call can be formatted, the request
    that the tool passes to [client.get] has a URL under the API base
    that the arguments of the tool fix: it is the same whatever the API
    key is and whatever the server answers.  Its timeout is 30
    seconds. *)
Theorem request_url_depends_on_arguments_only (c : call) (w w' : world) :
  arguments_format c ->
  sent (invoke c) w = sent (invoke c) w'
  /\ (exists path, sent (invoke c) w = [FINANCIAL_DATASETS_API_BASE ++ path])
  /\ map timeout (snd (run (invoke c) w)) = [30].
Proof.
  intros _. rewrite !sent_invoke, invoke_run. repeat split.
  destruct c; unfold target, endpoint; eexists; reflexivity.
Qed.

Lemma request_url_witness :
  sent (invoke (CashFlowStatements (lit "AAPL") (lit "2024-01-01")
                  (lit "annual") 2)) income_world
  = sent (invoke (CashFlowStatements (lit "AAPL") (lit "2024-01-01")
                    (lit "annual") 2)) failing_world
  /\ (exists path,
        sent (invoke (CashFlowStatements (lit "AAPL") (lit "2024-01-01")
                        (lit "annual") 2)) income_world
        = [FINANCIAL_DATASETS_API_BASE ++ path])
  /\ map timeout
       (snd (run (invoke (CashFlowStatements (lit "AAPL") (lit "2024-01-01")
                            (lit "annual") 2)) income_world)) = [30].
Proof.
  apply (request_url_depends_on_arguments_only
           (CashFlowStatements (lit "AAPL") (lit "2024-01-01") (lit "annual") 2)
           income_world failing_world).
  vm_compute. discriminate.
Defined.

(** X7: when the [int] argument of a call can be formatted, the headers
    that the tool passes to [client.get] hold [X-API-KEY] with the key
    unchanged if [FINANCIAL_DATASETS_API_KEY] is set to a non-empty
    string, and are empty if the key is unset or empty.  Whether the
    client can encode and transmit the header is not part of this. *)
Theorem api_key_header_passed_to_client (c : call) (w : world) :
  arguments_format c ->
  (forall key, api_key w = Some key -> key <> [] ->
     map headers (snd (run (invoke c) w)) = [[(lit "X-API-KEY", key)]])
  /\ (api_key w = None \/ api_key w = Some [] ->
      map headers (snd (run (invoke c) w)) = [[]]).
Proof.
  intros _. rewrite invoke_run. cbn [snd map headers request_for].
  unfold key_headers. split.
  - intros key -> Hk. destruct key; [contradiction|reflexivity].
  - intros [-> | ->]; reflexivity.
Qed.

Lemma api_key_header_witness :
  (forall key, api_key income_world = Some key -> key <> [] ->
     map headers
       (snd (run (invoke (CompanyNews (lit "AAPL") (lit "2024-01-01")))
               income_world))
     = [[(lit "X-API-KEY", key)]])
  /\ (api_key income_world = None \/ api_key income_world = Some [] ->
      map headers
        (snd (run (invoke (CompanyNews (lit "AAPL") (lit "2024-01-01")))
                income_world))
      = [[]]).
Proof.
  apply (api_key_header_passed_to_client
           (CompanyNews (lit "AAPL") (lit "2024-01-01")) income_world).
  exact I.
Defined.

(** ** The order on date strings and the clamp *)

Lemma str_gt_cons (x y : N) (a b : pystr) :
  str_gt (x :: a) (y :: b)
  = if y <? x then true else if x =? y then str_gt a b else false.
Proof. reflexivity. Qed.

Lemma str_gt_irrefl (a : pystr) : str_gt a a = false.
Proof.
  induction a as [|x a IH]; [reflexivity|]. rewrite str_gt_cons.
  rewrite N.ltb_irrefl, N.eqb_refl. exact IH.
Qed.

Lemma str_gt_asym (a b : pystr) : str_gt a b = true -> str_gt b a = false.
Proof.
  revert b. induction a as [|x a IH]; intros [|y b]; try easy.
  rewrite !str_gt_cons.
  destruct (N.ltb_spec y x), (N.ltb_spec x y), (N.eqb_spec x y),
    (N.eqb_spec y x); try lia; try easy. apply IH.
Qed.

(** [a <= b] and [b <= c] give [a <= c]. *)
Lemma str_le_trans (a b c : pystr) :
  str_gt a b = false -> str_gt b c = false -> str_gt a c = false.
Proof.
  revert b c. induction a as [|x a IH]; intros [|y b] [|z c]; try easy.
  rewrite !str_gt_cons.
  destruct (N.ltb_spec y x), (N.ltb_spec z y), (N.ltb_spec z x),
    (N.eqb_spec x y), (N.eqb_spec y z), (N.eqb_spec x z);
    try lia; try easy. apply IH.
Qed.

(** X8: the [end_date] that a price tool sends is the caller's or the
    cutoff, and it is never greater than the cutoff in the order the
    tool compares with. *)
Theorem sent_end_date_not_after_cutoff
    (w : world) (ticker start_date end_date cutoff_date interval : pystr)
    (interval_multiplier : Z) :
  exists e,
    str_gt e cutoff_date = false
    /\ (e = end_date \/ e = cutoff_date)
    /\ sent (get_historical_stock_prices ticker start_date end_date cutoff_date
               interval interval_multiplier) w
       = [endpoint (lit "/prices/")
            (price_params ticker interval interval_multiplier start_date e)]
    /\ sent (get_crypto_prices ticker start_date end_date cutoff_date
               interval interval_multiplier) w
       = [endpoint (lit "/crypto/prices/")
            (price_params ticker interval interval_multiplier start_date e)]
    /\ sent (get_historical_crypto_prices ticker start_date end_date cutoff_date
               interval interval_multiplier) w
       = [endpoint (lit "/crypto/prices/")
            (price_params ticker interval interval_multiplier start_date e)].
Proof.
  exists (if str_gt end_date cutoff_date then cutoff_date else end_date).
  split; [|split; [|split; [|split]]].
  - destruct (str_gt end_date cutoff_date) eqn:E; [apply str_gt_irrefl|exact E].
  - destruct (str_gt end_date cutoff_date); auto.
  - exact (sent_invoke (HistoricalStockPrices ticker start_date end_date
             cutoff_date interval interval_multiplier) w).
  - exact (sent_invoke (CryptoPrices ticker start_date end_date
             cutoff_date interval interval_multiplier) w).
  - exact (sent_invoke (HistoricalCryptoPrices ticker start_date end_date
             cutoff_date interval interval_multiplier) w).
Qed.

(** X9: clamping is idempotent: a price tool called with the
    [end_date] it would send behaves as when called with the original
    [end_date], in its result and in its request. *)
Theorem clamp_is_idempotent
    (w : world) (ticker start_date end_date cutoff_date interval : pystr)
    (interval_multiplier : Z) :
  let clamped := if str_gt end_date cutoff_date then cutoff_date else end_date in
  run (get_historical_stock_prices ticker start_date clamped cutoff_date
         interval interval_multiplier) w
  = run (get_historical_stock_prices ticker start_date end_date cutoff_date
           interval interval_multiplier) w
  /\ run (get_crypto_prices ticker start_date clamped cutoff_date
            interval interval_multiplier) w
     = run (get_crypto_prices ticker start_date end_date cutoff_date
              interval interval_multiplier) w
  /\ run (get_historical_crypto_prices ticker start_date clamped cutoff_date
            interval interval_multiplier) w
     = run (get_historical_crypto_prices ticker start_date end_date cutoff_date
              interval interval_multiplier) w.
Proof.
  cbv zeta.
  assert (E : (if str_gt (if str_gt end_date cutoff_date then cutoff_date
                          else end_date) cutoff_date
               then cutoff_date
               else if str_gt end_date cutoff_date then cutoff_date else end_date)
              = if str_gt end_date cutoff_date then cutoff_date else end_date).
  { destruct (str_gt end_date cutoff_date) eqn:H.
    - now rewrite str_gt_irrefl.
    - now rewrite H. }
  unfold get_historical_stock_prices, get_crypto_prices,
    get_historical_crypto_prices. cbv zeta. rewrite E. now repeat split.
Qed.

(** X10: an earlier cutoff never makes a price tool ask for a later
    [end_date]: with [c1 <= c2], what is sent under [c1] is not greater
    than what is sent under [c2]. *)
Theorem earlier_cutoff_sends_no_later_end_date
    (w : world) (ticker start_date end_date c1 c2 interval : pystr)
    (interval_multiplier : Z) :
  str_gt c1 c2 = false ->
  exists e1 e2,
    sent (get_historical_stock_prices ticker start_date end_date c1
            interval interval_multiplier) w
    = [endpoint (lit "/prices/")
         (price_params ticker interval interval_multiplier start_date e1)]
    /\ sent (get_historical_stock_prices ticker start_date end_date c2
               interval interval_multiplier) w
       = [endpoint (lit "/prices/")
            (price_params ticker interval interval_multiplier start_date e2)]
    /\ str_gt e1 e2 = false.
Proof.
  intro H.
  exists (if str_gt end_date c1 then c1 else end_date),
         (if str_gt end_date c2 then c2 else end_date).
  split; [|split].
  - exact (sent_invoke (HistoricalStockPrices ticker start_date end_date
             c1 interval interval_multiplier) w).
  - exact (sent_invoke (HistoricalStockPrices ticker start_date end_date
             c2 interval interval_multiplier) w).
  - destruct (str_gt end_date c1) eqn:E1, (str_gt end_date c2) eqn:E2.
    + exact H.
    + now apply str_gt_asym.
    + rewrite (str_le_trans _ _ _ E1 H) in E2. discriminate E2.
    + apply str_gt_irrefl.
Qed.

Lemma earlier_cutoff_witness :
  exists e1 e2,
    sent (get_historical_stock_prices (lit "AAPL") (lit "2023-01-01")
            (lit "2023-09-30") (lit "2023-06-30") (lit "day") 1) income_world
    = [endpoint (lit "/prices/")
         (price_params (lit "AAPL") (lit "day") 1 (lit "2023-01-01") e1)]
    /\ sent (get_historical_stock_prices (lit "AAPL") (lit "2023-01-01")
               (lit "2023-09-30") (lit "2023-12-31") (lit "day") 1) income_world
       = [endpoint (lit "/prices/")
            (price_params (lit "AAPL") (lit "day") 1 (lit "2023-01-01") e2)]
    /\ str_gt e1 e2 = false.
Proof.
  exact (earlier_cutoff_sends_no_later_end_date income_world (lit "AAPL")
           (lit "2023-01-01") (lit "2023-09-30") (lit "2023-06-30")
           (lit "2023-12-31") (lit "day") 1 eq_refl).
Defined.

(** ** Dates in the documented format *)

Lemma zero_padded_order (w : nat) :
  forall (n n' : N) (s s' : pystr),
    n < 10 ^ N.of_nat w -> n' < 10 ^ N.of_nat w ->
    str_gt (zero_padded w n ++ s) (zero_padded w n' ++ s')
    = if n' <? n then true else if n =? n' then str_gt s s' else false.
Proof.
  induction w as [|w IH]; intros n n' s s' Hn Hn'.
  - cbn in Hn, Hn'. assert (n = 0) by lia. assert (n' = 0) by lia. now subst.
  - rewrite Nat2N.inj_succ, N.pow_succ_r' in Hn, Hn'.
    cbn [zero_padded]. rewrite <- !app_assoc. cbn [app].
    rewrite IH by (apply N.Div0.div_lt_upper_bound; assumption).
    rewrite str_gt_cons.
    destruct (N.ltb_spec (n' / 10) (n / 10)), (N.eqb_spec (n / 10) (n' / 10)),
      (N.ltb_spec (48 + n' mod 10) (48 + n mod 10)),
      (N.eqb_spec (48 + n mod 10) (48 + n' mod 10)),
      (N.ltb_spec n' n), (N.eqb_spec n n');
      try reflexivity; exfalso; clear IH Hn Hn'; euclid.
Qed.

(** On dates in the [YYYY-MM-DD] format, the comparison of the tools is
    the comparison of the dates. *)
Lemma iso_date_order (y m d y' m' d' : N) :
  y < 10000 -> m < 100 -> d < 100 -> y' < 10000 -> m' < 100 -> d' < 100 ->
  str_gt (iso_date y m d) (iso_date y' m' d') = later y m d y' m' d'.
Proof.
  intros Hy Hm Hd Hy' Hm' Hd'. unfold iso_date, later.
  rewrite (zero_padded_order 4) by assumption.
  destruct (y' <? y); [reflexivity|]. destruct (y =? y'); [|reflexivity].
  cbn [app]. rewrite str_gt_cons. change (45 <? 45) with false.
  change (45 =? 45) with true. cbv iota.
  rewrite (zero_padded_order 2) by assumption.
  destruct (m' <? m); [reflexivity|]. destruct (m =? m'); [|reflexivity].
  rewrite str_gt_cons. change (45 <? 45) with false.
  change (45 =? 45) with true. cbv iota.
  rewrite <- (List.app_nil_r (zero_padded 2 d)),
    <- (List.app_nil_r (zero_padded 2 d')).
  rewrite (zero_padded_order 2) by assumption.
  destruct (d' <? d); [reflexivity|]. now destruct (d =? d').
Qed.

(** X11: when [end_date] and [cutoff_date] are dates in the
    [YYYY-MM-DD] format, the three price tools send the earlier of the
    two dates as [end_date]. *)
Theorem iso_dates_are_clamped_chronologically
    (w : world) (ticker start_date interval : pystr) (interval_multiplier : Z)
    (y m d y' m' d' : N) :
  y < 10000 -> m < 100 -> d < 100 -> y' < 10000 -> m' < 100 -> d' < 100 ->
  let e := if later y m d y' m' d' then iso_date y' m' d' else iso_date y m d in
  sent (get_historical_stock_prices ticker start_date (iso_date y m d)
          (iso_date y' m' d') interval interval_multiplier) w
  = [endpoint (lit "/prices/")
       (price_params ticker interval interval_multiplier start_date e)]
  /\ sent (get_crypto_prices ticker start_date (iso_date y m d)
             (iso_date y' m' d') interval interval_multiplier) w
     = [endpoint (lit "/crypto/prices/")
          (price_params ticker interval interval_multiplier start_date e)]
  /\ sent (get_historical_crypto_prices ticker start_date (iso_date y m d)
             (iso_date y' m' d') interval interval_multiplier) w
     = [endpoint (lit "/crypto/prices/")
          (price_params ticker interval interval_multiplier start_date e)].
Proof.
  intros Hy Hm Hd Hy' Hm' Hd'. cbv zeta.
  rewrite <- (iso_date_order y m d y' m' d') by assumption.
  split; [|split].
  - exact (sent_invoke (HistoricalStockPrices ticker start_date _ _
             interval interval_multiplier) w).
  - exact (sent_invoke (CryptoPrices ticker start_date _ _
             interval interval_multiplier) w).
  - exact (sent_invoke (HistoricalCryptoPrices ticker start_date _ _
             interval interval_multiplier) w).
Qed.

Lemma iso_dates_witness :
  sent (get_historical_stock_prices (lit "AAPL") (lit "2023-01-01")
          (iso_date 2025 12 31) (iso_date 2023 6 30) (lit "day") 1) income_world
  = [endpoint (lit "/prices/")
       (price_params (lit "AAPL") (lit "day") 1 (lit "2023-01-01")
          (lit "2023-06-30"))].
Proof.
  refine (proj1 (iso_dates_are_clamped_chronologically income_world (lit "AAPL")
                   (lit "2023-01-01") (lit "day") 1 2025 12 31 2023 6 30
                   _ _ _ _ _ _)); reflexivity.
Defined.

(** ** Arguments in the URL *)

(** X12: arguments are put into the URL as they are, without
    URL-encoding: a ticker that ends in [&k=v] gives the news request one
    more query parameter [k=v], after the [end_date] of the cutoff. *)
Theorem query_parameters_are_not_escaped
    (w : world) (ticker cutoff_date k v : pystr) :
  sent (get_company_news (ticker ++ [38] ++ k ++ [61] ++ v) cutoff_date) w
  = [endpoint (lit "/news/")
       [(lit "limit", lit "20"); (lit "end_date", cutoff_date);
        (lit "ticker", ticker); (k, v)]].
Proof.
  pose proof (sent_invoke (CompanyNews (ticker ++ [38] ++ k ++ [61] ++ v)
                             cutoff_date) w) as H.
  cbn [invoke] in H. rewrite H. reflexivity.
Qed.

(** ** Answers that are data and answers that are messages *)

Lemma loads_not_found (c : call) : loads (not_found c) = None.
Proof. destruct c; vm_compute; reflexivity. Qed.

Lemma dumps_is_no_message (c : call) (v : json) :
  json_ok v = true -> dumps v <> not_found c.
Proof.
  intros Hok E. apply loads_dumps in Hok.
  rewrite E, loads_not_found in Hok. discriminate Hok.
Qed.

(** X13: the fixed message of a tool is not JSON text, and it is not the
    text of any well-formed value: an answer is either the message or
    data, and [json.loads] tells which. *)
Theorem not_found_is_never_data (c : call) :
  loads (not_found c) = None
  /\ forall v, json_ok v = true -> dumps v <> not_found c.
Proof.
  split; [apply loads_not_found|apply dumps_is_no_message].
Qed.

(** X14: [json.dumps] loses nothing: well-formed values with the same
    text are the same value. *)
Theorem dumps_injective (v1 v2 : json) :
  json_ok v1 = true -> json_ok v2 = true -> dumps v1 = dumps v2 -> v1 = v2.
Proof.
  intros H1 H2 E. apply loads_dumps in H1, H2. rewrite E, H2 in H1.
  now injection H1.
Qed.

Lemma dumps_injective_witness : JArr [JInt 1] = JArr [JInt 1].
Proof.
  exact (dumps_injective (JArr [JInt 1]) (JArr [JInt 1])
           eq_refl eq_refl eq_refl).
Defined.

(** X15: for the seven tools that test the extracted field and a body
    that is a well-formed dict, the fixed message is the answer exactly
    when the field is absent or holds a falsy value. *)
Theorem not_found_iff_field_absent_or_falsy (c : call) (w : world)
    (members : list (pystr * json)) :
  checks_field c = true ->
  serve w (request_for w (target c)) = Decoded (JObj members) ->
  json_ok (JObj members) = true ->
  (result (invoke c) w = Returned (not_found c)
   <-> lookup (envelope c) members = None
       \/ exists v, lookup (envelope c) members = Some v /\ truthy v = false).
Proof.
  intros Hc Hs Hok. rewrite result_invoke, Hs. unfold respond, payload, get.
  rewrite Hc. cbn [andb].
  destruct members as [|m ms]; [cbn; split; auto|].
  cbn [truthy negb].
  destruct (lookup (envelope c) (m :: ms)) as [v|] eqn:Hl.
  - destruct (truthy v) eqn:Hv; cbn [negb].
    + split.
      * intros [= E]. exfalso.
        apply (dumps_is_no_message c v); [|exact E].
        exact (lookup_well_formed _ _ _ Hok Hl).
      * intros [H|(v' & [= <-] & H)]; congruence.
    + split; [|reflexivity]. intros _. right. now exists v.
  - split; [auto|reflexivity].
Qed.

Lemma not_found_iff_witness :
  result (invoke (CompanyNews (lit "AAPL") (lit "2024-01-01")))
    (constant_world (Decoded (JObj [(lit "news", JArr [])])))
  = Returned (lit "Unable to fetch news or no news found.")
  <-> lookup (lit "news") [(lit "news", JArr [])] = None
      \/ exists v, lookup (lit "news") [(lit "news", JArr [])] = Some v
                   /\ truthy v = false.
Proof.
  exact (not_found_iff_field_absent_or_falsy
           (CompanyNews (lit "AAPL") (lit "2024-01-01"))
           (constant_world (Decoded (JObj [(lit "news", JArr [])])))
           [(lit "news", JArr [])] eq_refl eq_refl eq_refl).
Defined.

(** X16: on a body that is a non-empty dict, the ticker listing returns
    the text of whatever the field [tickers] holds, be it empty, [None]
    or no list at all, and the text of the empty list when the field is
    absent; it has no fixed message for these cases. *)
Theorem crypto_tickers_returns_field_or_default (w : world)
    (cutoff_date : pystr) (m : pystr * json) (ms : list (pystr * json)) :
  serve w (request_for w (target (AvailableCryptoTickers cutoff_date)))
  = Decoded (JObj (m :: ms)) ->
  result (get_available_crypto_tickers cutoff_date) w
  = Returned (dumps (match lookup (lit "tickers") (m :: ms) with
                     | Some v => v
                     | None => JArr []
                     end)).
Proof.
  intro Hs.
  pose proof (result_invoke (AvailableCryptoTickers cutoff_date) w) as H.
  cbn [invoke] in H. rewrite H, Hs. unfold respond, payload, get.
  cbn [truthy negb envelope checks_field andb].
  now destruct (lookup (lit "tickers") (m :: ms)).
Qed.

Lemma crypto_tickers_null_witness :
  result (get_available_crypto_tickers (lit "2024-01-01"))
    (constant_world (Decoded (JObj [(lit "tickers", JNull)])))
  = Returned (lit "null").
Proof.
  exact (crypto_tickers_returns_field_or_default
           (constant_world (Decoded (JObj [(lit "tickers", JNull)])))
           (lit "2024-01-01") (lit "tickers", JNull) [] eq_refl).
Defined.

(** ** The characters of an answer *)

Lemma hex_digit_printable (d : N) : d < 16 -> printable (hex_digit d).
Proof.
  intro H. unfold hex_digit, printable.
  destruct (N.ltb_spec d 10); right; lia.
Qed.

Lemma u_escape_printable (n : N) : n < 65536 -> Forall printable (u_escape n).
Proof.
  intro H. unfold u_escape.
  repeat (constructor; [first [apply hex_digit_printable; euclid
                              |right; lia]|]).
  constructor.
Qed.

Lemma surrogate_halves_small (n : N) :
  N.lor 55296 (N.land (N.shiftr n 10) 1023) < 65536
  /\ N.lor 56320 (N.land n 1023) < 65536.
Proof.
  change 1023 with (N.ones 10). rewrite !N.land_ones.
  change (2 ^ 10) with 1024.
  assert (H1 : N.shiftr n 10 mod 1024 < 1024) by (apply N.mod_lt; lia).
  assert (H2 : n mod 1024 < 1024) by (apply N.mod_lt; lia).
  change 55296 with (54 * 1024). change 56320 with (55 * 1024).
  rewrite !lor_high_low by assumption. lia.
Qed.

(** Whatever the character, its replacement is printable ASCII. *)
Lemma escape_char_printable (c : N) : Forall printable (escape_char c).
Proof.
  unfold escape_char.
  repeat match goal with
    | |- context [c =? ?k] =>
        destruct (N.eqb_spec c k);
        [repeat (constructor; [right; lia|]); constructor|]
    end.
  destruct (N.leb_spec 32 c), (N.leb_spec c 126); cbn [andb];
    try (constructor; [right; lia|constructor]);
    (destruct (N.ltb_spec c 65536); [now apply u_escape_printable|]);
    cbv zeta; apply Forall_app; split; apply u_escape_printable;
    apply surrogate_halves_small.
Qed.

Lemma encoded_string_printable (s : pystr) :
  Forall printable (encode_basestring_ascii s).
Proof.
  unfold encode_basestring_ascii. apply Forall_app. split.
  - constructor; [right; lia|constructor].
  - apply Forall_app. split; [|constructor; [right; lia|constructor]].
    induction s as [|c s IH]; [constructor|].
    cbn [flat_map]. apply Forall_app. split; [apply escape_char_printable|exact IH].
Qed.

Lemma digit_printable (c : N) : is_digit c = true -> printable c.
Proof.
  unfold is_digit. intro H. apply andb_true_iff in H. destruct H as [H1 H2].
  apply N.leb_le in H1, H2. right. lia.
Qed.

Lemma number_char_printable (c : N) : number_char c -> printable c.
Proof.
  intros [H|[->|[->|[->|[->| ->]]]]]; [now apply digit_printable|..];
    right; lia.
Qed.

Lemma span_digits_digits (s : pystr) :
  Forall number_char (fst (span_digits s)).
Proof.
  induction s as [|c s IH]; [constructor|]. cbn.
  destruct (is_digit c) eqn:Hc; [|constructor].
  destruct (span_digits s) as [ds r]. cbn in *. constructor; [now left|exact IH].
Qed.

Lemma scan_int_chars (c : N) (s : pystr) :
  is_digit c = true -> Forall number_char (fst (scan_int c s)).
Proof.
  intro Hc. unfold scan_int. destruct (c =? 48).
  - constructor; [now left|constructor].
  - pose proof (span_digits_digits s) as H. destruct (span_digits s).
    cbn in *. constructor; [now left|exact H].
Qed.

Lemma scan_frac_chars (s : pystr) : Forall number_char (fst (scan_frac s)).
Proof.
  destruct s as [|p [|d s]]; try constructor. cbn [scan_frac].
  destruct (N.eqb_spec p 46) as [->|]; [|constructor].
  destruct (is_digit d) eqn:Hd; cbn [andb]; [|constructor].
  pose proof (span_digits_digits s) as H. destruct (span_digits s).
  cbn in *. constructor; [right; now left|]. constructor; [now left|exact H].
Qed.

Lemma scan_exp_chars (s : pystr) : Forall number_char (fst (scan_exp s)).
Proof.
  destruct s as [|e s]; [constructor|]. cbn [scan_exp].
  assert (He : (e =? 101) || (e =? 69) = true -> number_char e).
  { intro H. apply orb_true_iff in H. destruct H as [H|H];
      apply N.eqb_eq in H; subst; unfold number_char; auto. }
  destruct ((e =? 101) || (e =? 69)); [|constructor].
  specialize (He eq_refl).
  assert (Hsign : forall g, (g =? 45) || (g =? 43) = true -> number_char g).
  { intros g H. apply orb_true_iff in H. destruct H as [H|H];
      apply N.eqb_eq in H; subst; unfold number_char; auto 6. }
  destruct s as [|g t].
  - cbn. constructor.
  - destruct ((g =? 45) || (g =? 43)) eqn:Hg.
    + pose proof (span_digits_digits t) as H. destruct (span_digits t) as [ds r].
      cbn in *. destruct ds; [constructor|].
      cbn. constructor; [exact He|]. constructor; [now apply Hsign|exact H].
    + pose proof (span_digits_digits (g :: t)) as H.
      destruct (span_digits (g :: t)) as [ds r].
      cbn in *. destruct ds; [constructor|].
      cbn. constructor; [exact He|exact H].
Qed.

Lemma number_body_chars (negative : bool) (s : pystr) n ip fr ex r :
  number_body negative s = Some (n, ip, fr, ex, r) ->
  Forall number_char (ip ++ fr ++ ex).
Proof.
  destruct s as [|c s]; [discriminate|]. cbn [number_body].
  destruct (is_digit c) eqn:Hc; [|discriminate].
  pose proof (scan_int_chars c s Hc) as Hi.
  destruct (scan_int c s) as [ip' s3].
  pose proof (scan_frac_chars s3) as Hf.
  destruct (scan_frac s3) as [fr' s4].
  pose proof (scan_exp_chars s4) as He.
  destruct (scan_exp s4) as [ex' s5].
  intros [= <- <- <- <- <-]. cbn in *.
  apply Forall_app. split; [exact Hi|]. apply Forall_app. now split.
Qed.

Lemma float_literal_printable (r : pystr) :
  float_ok (FRepr r) = true -> Forall printable r.
Proof.
  cbn [float_ok].
  destruct (number_token r) as [[[[[n ip] fr] ex] rest]|] eqn:E;
    [|discriminate].
  destruct rest; [|discriminate]. intros _.
  assert (H : Forall number_char (ip ++ fr ++ ex)).
  { destruct r as [|c r]; [discriminate E|]. cbn [number_token] in E.
    destruct (c =? 45); now apply number_body_chars in E. }
  destruct (number_token_sound _ _ _ _ _ E) as [-> _].
  apply Forall_app. split.
  - destruct n; [constructor; [right; lia|constructor]|constructor].
  - eapply Forall_impl; [|exact H]. exact number_char_printable.
Qed.

Lemma str_of_int_printable (z : Z) : Forall printable (str_of_int z).
Proof.
  assert (H : forall d, Forall printable (uint_chars d)).
  { intro d. eapply Forall_impl; [|apply uint_chars_digits].
    exact digit_printable. }
  destruct z; cbn [str_of_int]; [|apply H|].
  - constructor; [right; lia|constructor].
  - constructor; [right; lia|apply H].
Qed.

Lemma newline_indent_printable (level : nat) :
  Forall printable (newline_indent level).
Proof.
  unfold newline_indent. constructor; [now left|].
  induction (2 * level)%nat; cbn; constructor; [right; lia|assumption].
Qed.

Lemma literal_printable (s : pystr) :
  forallb (fun c => (32 <=? c) && (c <=? 126)) s = true -> Forall printable s.
Proof.
  intro H. rewrite forallb_forall in H. apply Forall_forall. intros c Hc.
  specialize (H c Hc). apply andb_true_iff in H. destruct H as [H1 H2].
  apply N.leb_le in H1, H2. now right.
Qed.

(** The text of a well-formed value is printable ASCII and line feeds. *)
Lemma iterencode_printable (v : json) :
  json_ok v = true -> forall level, Forall printable (iterencode level v).
Proof.
  induction v as [|b|z|f|s|items IH|members IH] using json_ind;
    intros Hok level.
  - now apply literal_printable.
  - destruct b; now apply literal_printable.
  - apply str_of_int_printable.
  - destruct f; try (now apply literal_printable).
    now apply float_literal_printable.
  - apply encoded_string_printable.
  - destruct items as [|x xs]; [now apply literal_printable|].
    rewrite iterencode_arr. cbn [json_ok forallb] in Hok.
    apply andb_true_iff in Hok. destruct Hok as [Hx Hxs].
    inversion IH as [|? ? IHx IHxs]; subst.
    assert (Hmore : Forall printable
                      (more_items (newline_indent (S level))
                         (iterencode (S level)) xs)).
    { clear -IHxs Hxs. induction IHxs as [|y ys Hy _ IHys]; [constructor|].
      cbn [forallb] in Hxs. apply andb_true_iff in Hxs.
      destruct Hxs as [Hoky Hoks].
      rewrite more_items_cons. constructor; [right; lia|].
      apply Forall_app. split; [apply newline_indent_printable|].
      apply Forall_app. split; [now apply Hy|now apply IHys]. }
    constructor; [right; lia|].
    apply Forall_app. split; [apply newline_indent_printable|].
    apply Forall_app. split; [now apply IHx|].
    apply Forall_app. split; [exact Hmore|].
    apply Forall_app. split; [apply newline_indent_printable|].
    constructor; [right; lia|constructor].
  - destruct members as [|[k x] ms]; [now apply literal_printable|].
    rewrite iterencode_obj. cbn [json_ok forallb fst snd] in Hok.
    apply andb_true_iff in Hok. destruct Hok as [_ Hok].
    apply andb_true_iff in Hok. destruct Hok as [Hkx Hms].
    apply andb_true_iff in Hkx. destruct Hkx as [_ Hx].
    inversion IH as [|? ? IHx IHxs]; subst. cbn [snd] in IHx.
    assert (Hsep : Forall printable [58; 32]).
    { constructor; [right; lia|constructor; [right; lia|constructor]]. }
    assert (Hmore : Forall printable
                      (more_members (newline_indent (S level))
                         (iterencode (S level)) ms)).
    { clear -IHxs Hms Hsep.
      induction IHxs as [|[k' y] ys Hy _ IHys]; [constructor|].
      cbn [forallb fst snd] in Hms. apply andb_true_iff in Hms.
      destruct Hms as [Hky Hys]. apply andb_true_iff in Hky.
      destruct Hky as [_ Hoky]. cbn [snd] in Hy.
      rewrite more_members_cons. constructor; [right; lia|].
      apply Forall_app. split; [apply newline_indent_printable|].
      apply Forall_app. split; [apply encoded_string_printable|].
      apply Forall_app. split; [exact Hsep|].
      apply Forall_app. split; [now apply Hy|now apply IHys]. }
    constructor; [right; lia|].
    apply Forall_app. split; [apply newline_indent_printable|].
    apply Forall_app. split; [apply encoded_string_printable|].
    apply Forall_app. split; [exact Hsep|].
    apply Forall_app. split; [now apply IHx|].
    apply Forall_app. split; [exact Hmore|].
    apply Forall_app. split; [apply newline_indent_printable|].
    constructor; [right; lia|constructor].
Qed.

Lemma not_found_printable (c : call) : Forall printable (not_found c).
Proof. destruct c; now apply literal_printable. Qed.

(** X17: when the bodies the server sends are well-formed values, every
    answer of a tool is made of printable ASCII characters and line
    feeds: characters outside ASCII in the payload arrive as [\uXXXX]
    escapes. *)
Theorem answers_are_printable_ascii (c : call) (w : world) (s : pystr) :
  (forall r body, serve w r = Decoded body -> json_ok body = true) ->
  result (invoke c) w = Returned s ->
  Forall printable s.
Proof.
  intros Hw. rewrite result_invoke.
  destruct (serve w (request_for w (target c))) as [body|msg] eqn:Hs;
    unfold respond, payload, get.
  - specialize (Hw _ _ Hs).
    destruct (truthy body); cbn [negb];
      [|intros [= <-]; apply not_found_printable].
    destruct body as [|b|z|f|t|items|members]; try discriminate.
    destruct (lookup (envelope c) members) as [v|] eqn:Hl.
    + destruct (checks_field c && negb (truthy v)); intros [= <-];
        [apply not_found_printable|].
      apply iterencode_printable. exact (lookup_well_formed _ _ _ Hw Hl).
    + destruct (checks_field c && negb (truthy (JArr []))); intros [= <-];
        [apply not_found_printable|now apply literal_printable].
  - cbn [truthy negb]. rewrite lookup_error_payload.
    destruct (checks_field c && negb (truthy (JArr []))); intros [= <-];
      [apply not_found_printable|now apply literal_printable].
Qed.

Lemma answers_are_printable_witness :
  Forall printable
    (dumps (JArr [JObj [(lit "revenue", JInt 100)];
                  JObj [(lit "revenue", JInt 90)]])).
Proof.
  apply (answers_are_printable_ascii
           (IncomeStatements (lit "AAPL") (lit "2024-01-01") (lit "annual") 2)
           income_world).
  - intros r body [= <-]. reflexivity.
  - reflexivity.
Defined.

(** ** What the tests observe *)

(** X18: run with a key in the environment and against a server that
    sends well-formed bodies, [test_get_income_statements] passes
    exactly when the body is a dict whose field [income_statements] is a
    non-empty list and the first item of that list contains ["revenue"]
    or ["net_income"]. *)
Theorem income_test_passes_iff (key : pystr) (w : world) :
  key <> [] ->
  api_key w = Some key ->
  (forall r body, serve w r = Decoded body -> json_ok body = true) ->
  (test_get_income_statements (Some key) w = TestPassed
   <-> exists members first rest,
         serve w (request_for w (target (IncomeStatements (lit "AAPL")
                    (lit "2024-01-01") (lit "annual") 2)))
         = Decoded (JObj members)
         /\ lookup (lit "income_statements") members = Some (JArr (first :: rest))
         /\ either_in (lit "revenue") (lit "net_income") first = true).
Proof.
  intros Hkey _ Hw. unfold test_get_income_statements.
  destruct key as [|k0 key]; [contradiction|]. cbn [skipped].
  set (c := IncomeStatements (lit "AAPL") (lit "2024-01-01") (lit "annual") 2).
  change (get_income_statements (lit "AAPL") (lit "2024-01-01") (lit "annual") 2)
    with (invoke c).
  rewrite result_invoke.
  assert (Hnf : match loads (not_found c) with
                | Some (JArr []) => TestPassed
                | Some (JArr (first :: _)) =>
                    if either_in (lit "revenue") (lit "net_income") first
                    then TestPassed else TestFailed
                | _ => TestFailed
                end = TestFailed) by now rewrite loads_not_found.
  destruct (serve w (request_for w (target c))) as [body|msg] eqn:Hs;
    unfold respond, payload, get.
  - specialize (Hw _ _ Hs).
    destruct (truthy body) eqn:Hb; cbn [negb].
    + destruct body as [|b|z|f|t|items|members];
        try (split; [discriminate|intros (? & ? & ? & [=] & _)]).
      change (envelope c) with (lit "income_statements").
      change (checks_field c) with true. cbn [andb].
      destruct (lookup (lit "income_statements") members) as [v|] eqn:Hl.
      * destruct (truthy v) eqn:Hv; cbn [negb].
        -- rewrite (loads_dumps v (lookup_well_formed _ _ _ Hw Hl)).
           destruct v as [|b|z|f|t|[|first rest]|ms];
             try discriminate Hv;
             try (split; [discriminate
                         |intros (? & ? & ? & [= <-] & E & _); congruence]).
           split.
           ++ intro H. exists members, first, rest.
              repeat split; try assumption.
              now destruct (either_in (lit "revenue") (lit "net_income") first).
           ++ intros (? & ? & ? & [= <-] & E & H). rewrite Hl in E.
              injection E as <- <-. now rewrite H.
        -- rewrite Hnf. split; [discriminate|].
           intros (? & ? & ? & [= <-] & E & _). rewrite Hl in E.
           injection E as ->. discriminate Hv.
      * cbn [truthy negb]. rewrite Hnf. split; [discriminate|].
        intros (? & ? & ? & [= <-] & E & _). congruence.
    + rewrite Hnf. split; [discriminate|].
      intros (ms & ? & ? & [= ->] & E & _). destruct ms; discriminate.
  - cbn [truthy negb]. rewrite lookup_error_payload.
    change (checks_field c) with true. cbn [truthy negb andb].
    rewrite Hnf. split; [discriminate|intros (? & ? & ? & [=] & _)].
Qed.

Lemma income_test_passes_witness :
  test_get_income_statements (Some (lit "secret")) income_world = TestPassed
  <-> exists members first rest,
        serve income_world
          (request_for income_world
             (target (IncomeStatements (lit "AAPL") (lit "2024-01-01")
                        (lit "annual") 2)))
        = Decoded (JObj members)
        /\ lookup (lit "income_statements") members = Some (JArr (first :: rest))
        /\ either_in (lit "revenue") (lit "net_income") first = true.
Proof.
  apply (income_test_passes_iff (lit "secret") income_world).
  - discriminate.
  - reflexivity.
  - intros r body [= <-]. reflexivity.
Defined.

(** X19: run with a key in the environment while every request fails,
    [test_get_available_crypto_tickers] passes, since the tool answers
    with the text of an empty list, and [test_get_income_statements]
    fails, since the fixed message is not JSON text; without a key in
    the environment both tests are skipped. *)
Theorem tickers_test_passes_on_failure (today key : pystr) (w : world) :
  (forall r, exists e, serve w r = Failed e) ->
  key <> [] ->
  api_key w = Some key ->
  (test_get_available_crypto_tickers (Some key) today w = TestPassed
   /\ test_get_income_statements (Some key) w = TestFailed)
  /\ (forall environ_key, environ_key = None \/ environ_key = Some [] ->
        test_get_available_crypto_tickers environ_key today w = TestSkipped
        /\ test_get_income_statements environ_key w = TestSkipped).
Proof.
  intros Hf Hkey _. split.
  - unfold test_get_available_crypto_tickers, test_get_income_statements.
    destruct key as [|k0 key]; [contradiction|]. cbn [skipped].
    change (get_available_crypto_tickers today)
      with (invoke (AvailableCryptoTickers today)).
    change (get_income_statements (lit "AAPL") (lit "2024-01-01")
              (lit "annual") 2)
      with (invoke (IncomeStatements (lit "AAPL") (lit "2024-01-01")
                      (lit "annual") 2)).
    rewrite !result_invoke.
    destruct (Hf (request_for w (target (AvailableCryptoTickers today))))
      as [e1 ->].
    destruct (Hf (request_for w (target (IncomeStatements (lit "AAPL")
                (lit "2024-01-01") (lit "annual") 2)))) as [e2 ->].
    unfold respond, payload, get. cbn [truthy negb].
    rewrite !lookup_error_payload. split; reflexivity.
  - intros environ_key [-> | ->]; split; reflexivity.
Qed.

Lemma tickers_test_witness :
  (test_get_available_crypto_tickers (Some (lit "secret")) (lit "2024-01-01")
     failing_world = TestPassed
   /\ test_get_income_statements (Some (lit "secret")) failing_world = TestFailed)
  /\ (forall environ_key, environ_key = None \/ environ_key = Some [] ->
        test_get_available_crypto_tickers environ_key (lit "2024-01-01")
          failing_world = TestSkipped
        /\ test_get_income_statements environ_key failing_world = TestSkipped).
Proof.
  apply (tickers_test_passes_on_failure (lit "2024-01-01") (lit "secret")
           failing_world).
  - intro r. eexists. reflexivity.
  - discriminate.
  - reflexivity.
Defined.
